(** * subgen-whisperx: a shallow embedding of [subgen_whisperx.py]

    The program turns media files into SubRip subtitle files: it discovers
    media, extracts a mono 16 kHz audio track, hands it to the transcription
    collaborator, renders the segments and writes the result beside the
    source.

    Modelling conventions.
    - A Python [str] is a [string]; its characters are the 8-bit code points
      of [ascii] (the Latin-1 range), which covers every literal of the
      program and the command-line choices.
    - A Python [int] is a [Z]; a Python [float] is a primitive binary64
      [float].
    - Code that raises, logs, starts or stops the stopwatch, calls a
      collaborator or writes a file runs in the monad [M]: a function from
      the [world] to an [outcome] and the world after it.  Effects performed
      before an exception is raised stay in the world, as in Python.
    - The collaborators (torch, ffmpeg, whisperx, the file system) are the
      fields of an [env] record: what each call returns or raises.
    - Paths follow [posixpath]. *)

From Stdlib Require Import String Ascii List ZArith Lia Bool Floats.
From Stdlib Require Import DecimalString DecimalPos DecimalZ.
Import ListNotations.

Open Scope list_scope.
Open Scope string_scope.

(** ** Python built-ins used by the program *)

Module Py.

(** Exception classes the program can meet; all derive from [Exception]. *)
Inductive exn : Type :=
| AttributeError (msg : string)
| ValueError (msg : string)
| KeyError (key : string)
| IndexError (msg : string)
| OSError (msg : string)
| RuntimeError (msg : string).

(** [str(e)] *)
Definition exn_str (e : exn) : string :=
  match e with
  | AttributeError m | ValueError m | IndexError m | OSError m
  | RuntimeError m => m
  | KeyError k => "'" ++ k ++ "'"
  end.

Inductive outcome (A : Type) : Type :=
| Ok (a : A)
| Raise (e : exn).
Arguments Ok {A} a.
Arguments Raise {A} e.

Definition is_ValueError (e : exn) : bool :=
  match e with ValueError _ => true | _ => false end.

(** [s[:n]] and [s[n:]] for a non-negative [n]. *)
Fixpoint take (n : nat) (s : string) : string :=
  match n, s with
  | S n', String c s' => String c (take n' s')
  | _, _ => EmptyString
  end.

Fixpoint drop (n : nat) (s : string) : string :=
  match n, s with
  | S n', String _ s' => drop n' s'
  | _, _ => s
  end.

(** [bool(s)] for a string and for an optional string. *)
Definition truthy (s : string) : bool :=
  match s with EmptyString => false | String _ _ => true end.

Definition truthy_opt (o : option string) : bool :=
  match o with None => false | Some s => truthy s end.

(** [s.startswith(p)] *)
Fixpoint startswith (p s : string) : bool :=
  match p, s with
  | EmptyString, _ => true
  | String a p', String b s' => Ascii.eqb a b && startswith p' s'
  | String _ _, EmptyString => false
  end.

(** [s.endswith(p)] *)
Definition endswith (p s : string) : bool :=
  (String.length p <=? String.length s)%nat
  && String.eqb (drop (String.length s - String.length p) s) p.

(** [s.find(sub)]: the lowest index where [sub] occurs. *)
Fixpoint find_nat (sub s : string) : option nat :=
  if startswith sub s then Some O
  else match s with
       | EmptyString => None
       | String _ s' => option_map S (find_nat sub s')
       end.

(** [sub in s] *)
Definition contains (sub s : string) : bool :=
  match find_nat sub s with Some _ => true | None => false end.

(** [s.rfind(sub)]: the highest index where [sub] occurs, [-1] if none. *)
Fixpoint rfind_nat (sub s : string) : option nat :=
  match s with
  | EmptyString => if startswith sub s then Some O else None
  | String _ s' =>
      match rfind_nat sub s' with
      | Some i => Some (S i)
      | None => if startswith sub s then Some O else None
      end
  end.

Definition rfind (sub s : string) : Z :=
  match rfind_nat sub s with
  | Some i => Z.of_nat i
  | None => (-1)%Z
  end.

(** [s.rsplit(sep, 1)]: split once at the last occurrence of [sep];
    an empty separator is a [ValueError]. *)
Definition rsplit1 (sep s : string) : outcome (list string) :=
  match sep with
  | EmptyString => Raise (ValueError "empty separator")
  | String _ _ =>
      match rfind_nat sep s with
      | Some i => Ok [take i s; drop (i + String.length sep) s]
      | None => Ok [s]
      end
  end.

(** [xs[0]] *)
Definition index0 {A : Type} (xs : list A) : outcome A :=
  match xs with
  | x :: _ => Ok x
  | [] => Raise (IndexError "list index out of range")
  end.

(** [c.lower()] on the Latin-1 range: A-Z and the accented capitals
    192-222 (the multiplication sign 215 apart) move up by 32. *)
Definition lower_char (c : ascii) : ascii :=
  let n := nat_of_ascii c in
  if ((65 <=? n) && (n <=? 90))%nat then ascii_of_nat (n + 32)
  else if ((192 <=? n) && (n <=? 222) && negb (n =? 215))%nat
       then ascii_of_nat (n + 32)
  else c.

Fixpoint lower (s : string) : string :=
  match s with
  | EmptyString => EmptyString
  | String c s' => String (lower_char c) (lower s')
  end.

(** [x.lower()] where [x] may be [None]. *)
Definition lower_opt (x : option string) : outcome string :=
  match x with
  | Some s => Ok (lower s)
  | None => Raise (AttributeError "'NoneType' object has no attribute 'lower'")
  end.

(** [c.isspace()] on the Latin-1 range. *)
Definition isspace (c : ascii) : bool :=
  let n := nat_of_ascii c in
  (((9 <=? n) && (n <=? 13)) || ((28 <=? n) && (n <=? 32))
   || (n =? 133) || (n =? 160))%nat.

Fixpoint lstrip (s : string) : string :=
  match s with
  | EmptyString => EmptyString
  | String c s' => if isspace c then lstrip s' else s
  end.

Fixpoint rstrip (s : string) : string :=
  match s with
  | EmptyString => EmptyString
  | String c s' =>
      match rstrip s' with
      | EmptyString => if isspace c then EmptyString else String c EmptyString
      | r => String c r
      end
  end.

(** [s.strip()] *)
Definition strip (s : string) : string := rstrip (lstrip s).

(** [s.rstrip("/")] *)
Fixpoint rstrip_char (x : ascii) (s : string) : string :=
  match s with
  | EmptyString => EmptyString
  | String c s' =>
      match rstrip_char x s' with
      | EmptyString => if Ascii.eqb c x then EmptyString else String c EmptyString
      | r => String c r
      end
  end.

(** [str(i)] for an [int]. *)
Definition str_of_int (i : Z) : string := NilZero.string_of_int (Z.to_int i).

(** [int(s)] on a decimal numeral, [None] where Python raises. *)
Definition int_of_str (s : string) : option Z :=
  option_map Z.of_int (NilZero.int_of_string s).

(** [sep.join(xs)] *)
Fixpoint join (sep : string) (xs : list string) : string :=
  match xs with
  | [] => EmptyString
  | [x] => x
  | x :: rest => x ++ sep ++ join sep rest
  end.

(** Iterating over a [str] yields its characters as one-character
    strings. *)
Fixpoint iter_str (s : string) : list string :=
  match s with
  | EmptyString => []
  | String c s' => String c EmptyString :: iter_str s'
  end.

End Py.
Export Py.

(** ** [os.path] (posixpath) *)

Module OsPath.

(** [s * n]: [n] copies of [s]. *)
Fixpoint mul_str (s : string) (n : nat) : string :=
  match n with
  | O => EmptyString
  | S n' => s ++ mul_str s n'
  end.

(** [os.path.basename(p)]: [i = p.rfind('/') + 1; return p[i:]]. *)
Definition basename (p : string) : string :=
  let i := (rfind "/" p + 1)%Z in
  drop (Z.to_nat i) p.

(** [os.path.dirname(p)]: the head before the last slash, without its
    trailing slashes unless it is made of slashes only. *)
Definition dirname (p : string) : string :=
  let i := (rfind "/" p + 1)%Z in
  let head := take (Z.to_nat i) p in
  if truthy head && negb (String.eqb head (mul_str "/" (String.length head)))
  then rstrip_char "/"%char head
  else head.

(** The scan of [splitext] over the leading dots of the file name:
    [n] positions are left before [dotIndex]. *)
Fixpoint splitext_scan (p : string) (dotIndex filenameIndex n : nat)
  : string * string :=
  match n with
  | O => (p, EmptyString)
  | S n' =>
      if negb (String.eqb (take 1 (drop filenameIndex p)) ".")
      then (take dotIndex p, drop dotIndex p)
      else splitext_scan p dotIndex (S filenameIndex) n'
  end.

(** [os.path.splitext(p)]: split at the last dot of the last component,
    leading dots of the component not counting. *)
Definition splitext (p : string) : string * string :=
  let sepIndex := rfind "/" p in
  let dotIndex := rfind "." p in
  if (sepIndex <? dotIndex)%Z then
    let filenameIndex := Z.to_nat (sepIndex + 1) in
    splitext_scan p (Z.to_nat dotIndex) filenameIndex
                  (Z.to_nat dotIndex - filenameIndex)
  else (p, EmptyString).

(** [os.path.join(a, b)] *)
Definition join (a b : string) : string :=
  if startswith "/" b then b
  else if negb (truthy a) || endswith "/" a then a ++ b
  else a ++ "/" ++ b.

End OsPath.

(** ** The stopwatch of [utils.timer] *)

Module Timer.

(** Modelled from the spec: the interval of one label. *)
Record TimingRecord : Type := {
  label : string;
  startedAt : nat;
  stoppedAt : option nat
}.

(** Modelled from the spec: [utils/timer.py] is not part of the sources
    at hand.  The stopwatch keeps one start/stop record per label; time is
    the count of stopwatch calls made so far. *)
Record t : Type := {
  now : nat;
  records : list TimingRecord;
  summaries : nat
}.

Definition empty : t := {| now := 0; records := []; summaries := 0 |}.

Fixpoint upsert (r : TimingRecord) (rs : list TimingRecord)
  : list TimingRecord :=
  match rs with
  | [] => [r]
  | r' :: rest =>
      if String.eqb (label r') (label r) then r :: rest
      else r' :: upsert r rest
  end.

Fixpoint close (lbl : string) (at_ : nat) (rs : list TimingRecord)
  : list TimingRecord :=
  match rs with
  | [] => []
  | r :: rest =>
      if String.eqb (label r) lbl
      then {| label := lbl; startedAt := startedAt r; stoppedAt := Some at_ |}
           :: rest
      else r :: close lbl at_ rest
  end.

(** Modelled from the spec: [start(label)] opens the interval of a label. *)
Definition start (lbl : string) (tm : t) : t :=
  {| now := S (now tm);
     records := upsert {| label := lbl; startedAt := now tm;
                          stoppedAt := None |} (records tm);
     summaries := summaries tm |}.

(** Modelled from the spec: [stop(label)] closes the interval of a label. *)
Definition stop (lbl : string) (tm : t) : t :=
  {| now := S (now tm);
     records := close lbl (now tm) (records tm);
     summaries := summaries tm |}.

(** Modelled from the spec: [summary()] reports the recorded labels; the
    model counts the reports. *)
Definition summary (tm : t) : t :=
  {| now := now tm; records := records tm; summaries := S (summaries tm) |}.

End Timer.

(** ** Data model *)

Inductive log_level : Type := DEBUG | INFO | WARNING | ERROR | CRITICAL.

Record log_record : Type := {
  logger : string;
  level : log_level;
  message : string
}.

(** One transcript segment: [segment["start"]], [segment["end"]],
    [segment["text"]]. *)
Record segment : Type := {
  start : float;
  end_ : float;
  text : string
}.

(** What [model.transcribe] returns. *)
Record recognition : Type := {
  rec_language : string;
  rec_segments : list segment
}.

(** One stream of what [ffmpeg.probe] returns, and the probe itself. *)
Record stream : Type := { codec_type : string }.
Record probe_data : Type := { streams : list stream }.

(** The keyword arguments that [extract_audio] gives [ffmpeg.output] and
    [ffmpeg.run]. *)
Record ExtractionRequest : Type := {
  sourcePath : string;
  targetPath : string;
  acodec : string;
  ac : Z;
  ar : Z;
  q_a : Z;
  threads : Z;
  thread_queue_size : Z;
  fflags : string;
  overwrite_output : bool
}.

(** The parsed command line. *)
Record args : Type := {
  file : option string;
  directory : option string;
  compute_device : option string;
  model_size : string;
  log_level_arg : string
}.

(** Calls made to the collaborators, in order. *)
Inductive call : Type :=
| Call_cuda_is_available
| Call_ffmpeg_probe (path : string)
| Call_ffmpeg_run (req : ExtractionRequest)
| Call_whisperx_transcribe (model_size device audio_path : string)
| Call_whisperx_align (language audio_path device : string)
| Call_open_w (path : string).

(** The collaborators: what each call returns or raises. *)
Record env : Type := {
  cuda_is_available : outcome bool;
  ffmpeg_probe : string -> outcome probe_data;
  ffmpeg_run : ExtractionRequest -> outcome unit;
  os_walk : string -> list (string * list string * list string);
  os_path_isdir : string -> bool;
  os_path_isfile : string -> bool;
  (* [whisperx.load_model(model_size, device, compute_type="int8")] and
     [model.transcribe(audio_path, batch_size=16)] *)
  whisperx_transcribe : string -> string -> string -> outcome recognition;
  (* [whisperx.load_align_model(language, device)] and [whisperx.align] *)
  whisperx_align :
    list segment -> string -> string -> string -> outcome (list segment);
  (* [open(path, "w", encoding="utf-8")] and the write *)
  open_w : string -> outcome unit;
  linesep : string;
  (* [timer.Timer.format_time] *)
  format_time : float -> string;
  (* the format [:.2f] *)
  format_2f : float -> string
}.

(** What the program changes: the log, the stopwatch, the files written
    and the trace of collaborator calls. *)
Record world : Type := {
  logs : list log_record;
  stopwatch : Timer.t;
  written : list (string * string);
  calls : list call
}.

Definition world0 : world :=
  {| logs := []; stopwatch := Timer.empty; written := []; calls := [] |}.

(** ** The monad of effects *)

Definition M (A : Type) : Type := world -> outcome A * world.

Definition ret {A : Type} (a : A) : M A := fun w => (Ok a, w).

Definition bind {A B : Type} (m : M A) (f : A -> M B) : M B :=
  fun w =>
    match m w with
    | (Ok a, w') => f a w'
    | (Raise e, w') => (Raise e, w')
    end.

Definition raise {A : Type} (e : exn) : M A := fun w => (Raise e, w).

Definition lift {A : Type} (o : outcome A) : M A := fun w => (o, w).

Notation "x <- m ;; k" := (bind m (fun x => k))
  (at level 61, m at next level, right associativity).
Notation "m ;; k" := (bind m (fun _ => k))
  (at level 61, right associativity).

(** [try: m  except Exception as e: h e] *)
Definition try_except {A : Type} (m : M A) (h : exn -> M A) : M A :=
  fun w =>
    match m w with
    | (Ok a, w') => (Ok a, w')
    | (Raise e, w') => h e w'
    end.

(** [try: m  except C as e: h e] for the class that [is_C] recognises. *)
Definition try_except_on {A : Type} (is_C : exn -> bool) (m : M A)
  (h : exn -> M A) : M A :=
  try_except m (fun e => if is_C e then h e else raise e).

Definition log (name : string) (lvl : log_level) (msg : string) : M unit :=
  fun w =>
    (Ok tt,
     {| logs := logs w ++ [{| logger := name; level := lvl; message := msg |}];
        stopwatch := stopwatch w; written := written w; calls := calls w |}).

Definition stopwatch_do (f : Timer.t -> Timer.t) : M unit :=
  fun w =>
    (Ok tt,
     {| logs := logs w; stopwatch := f (stopwatch w); written := written w;
        calls := calls w |}).

(** A call to a collaborator: recorded, then its result or exception. *)
Definition call_out {A : Type} (c : call) (o : outcome A) : M A :=
  fun w =>
    (o,
     {| logs := logs w; stopwatch := stopwatch w; written := written w;
        calls := calls w ++ [c] |}).

Definition write_file (path content : string) : M unit :=
  fun w =>
    (Ok tt,
     {| logs := logs w; stopwatch := stopwatch w;
        written := written w ++ [(path, content)]; calls := calls w |}).

(** [for x in xs: s = body x s] *)
Fixpoint for_each {A S : Type} (xs : list A) (body : A -> S -> M S) (s : S)
  : M S :=
  match xs with
  | [] => ret s
  | x :: rest => s' <- body x s ;; for_each rest body s'
  end.

(** A block that may [return] early. *)
Inductive flow (R A : Type) : Type :=
| Return (r : R)
| Next (a : A).
Arguments Return {R A} r.
Arguments Next {R A} a.

(** ** The program *)

(** [get_device(device_selection)] *)
Definition get_device (E : env) (device_selection : option string) : M string :=
  let logger := "get_device" in
  if match device_selection with
     | None => true
     | Some s => contains "cuda" (lower s)
     end
  then
    r <- try_except
           (available <- call_out Call_cuda_is_available (cuda_is_available E) ;;
            if (available : bool) then
              log logger DEBUG "CUDA available." ;;
              ret (Return "cuda")
            else
              log logger WARNING "CUDA not available, falling back to CPU" ;;
              ret (Next tt))
           (fun e =>
              log logger ERROR
                  ("Warning: Error checking CUDA availability ("
                     ++ exn_str e ++ ")") ;;
              log logger WARNING "Falling back to CPU." ;;
              ret (Next tt)) ;;
    match r with
    | Return d => ret d
    | Next _ => ret "cpu"
    end
  else ret "cpu".

(** [is_media_file(file_path)]: the pair (valid media, audio only). *)
Definition is_media_file (E : env) (file_path : string) : M (bool * bool) :=
  let logger := "is_media_file" in
  let _valid_media_flag := false in
  let _valid_audio_flag := false in
  try_except
    (probe <- call_out (Call_ffmpeg_probe file_path) (ffmpeg_probe E file_path) ;;
     match streams probe with
     | s0 :: _ =>
         let stream_type := codec_type s0 in
         if String.eqb stream_type "audio" || String.eqb stream_type "video"
         then
           let _valid_media_flag := true in
           if String.eqb stream_type "audio"
           then ret (_valid_media_flag, true)
           else ret (_valid_media_flag, _valid_audio_flag)
         else ret (_valid_media_flag, _valid_audio_flag)
     | [] => ret (_valid_media_flag, _valid_audio_flag)
     end)
    (fun e =>
       log logger ERROR
           ("An error occurred while probing the file: " ++ exn_str e) ;;
       ret (false, false)).

(** The body of the walk of [get_media_files]: the files of one directory. *)
Definition scan_files (E : env) (root : string) (files : list string)
  (media_files : list (string * bool)) : M (list (string * bool)) :=
  for_each files
    (fun f media_files =>
       let file_path := OsPath.join root f in
       r <- is_media_file E file_path ;;
       let '(is_valid, is_audio) := r in
       if (is_valid : bool) then ret (media_files ++ [(file_path, is_audio)])%list
       else ret media_files)
    media_files.

(** [get_media_files(directory, file)]: [None] is Python's [None]. *)
Definition get_media_files (E : env) (directory file : option string)
  : M (option (list (string * bool))) :=
  let logger := "get_media_files" in
  let media_files : list (string * bool) := [] in
  r <- match directory with
       | Some d =>
           if truthy d then
             media_files <-
               for_each (os_walk E d)
                 (fun entry media_files =>
                    let '(root, _, files) := entry in
                    scan_files E root files media_files)
                 media_files ;;
             match media_files with
             | [] =>
                 log logger ERROR
                     ("No valid media files found in directory '" ++ d ++ "'") ;;
                 ret (Return None)
             | _ :: _ => ret (Next media_files)
             end
           else ret (Next media_files)
       | None => ret (Next media_files)
       end ;;
  match r with
  | Return v => ret v
  | Next media_files =>
      match file with
      | Some f =>
          if truthy f then
            r <- is_media_file E f ;;
            let '(is_valid, is_audio) := r in
            if (is_valid : bool) then ret (Some (media_files ++ [(f, is_audio)])%list)
            else
              log logger ERROR
                  ("Error: File '" ++ f ++ "' is not a valid media file.") ;;
              ret None
          else ret (Some media_files)
      | None => ret (Some media_files)
      end
  end.

(** The transcoding request of [extract_audio]. *)
Definition extraction_request (video_path extracted_audio_path : string)
  : ExtractionRequest :=
  {| sourcePath := video_path;
     targetPath := extracted_audio_path;
     acodec := "libmp3lame";
     ac := 1;
     ar := 16000;
     q_a := 0;
     threads := 0;
     thread_queue_size := 1024;
     fflags := "+fastseek";
     overwrite_output := true |}.

(** [extract_audio(video_path)] *)
Definition extract_audio (E : env) (video_path : string) : M string :=
  let logger := "extract_audio" in
  stopwatch_do (Timer.start "Audio Extraction") ;;
  let extracted_audio_path :=
    "audio-" ++ fst (OsPath.splitext (OsPath.basename video_path)) ++ ".mp3" in
  try_except
    (let stream := extraction_request video_path extracted_audio_path in
     call_out (Call_ffmpeg_run stream) (ffmpeg_run E stream))
    (fun e =>
       log logger ERROR
           ("An error occurred while extracting audio: " ++ exn_str e)) ;;
  stopwatch_do (Timer.stop "Audio Extraction") ;;
  ret extracted_audio_path.

(** [transcribe(audio_path, device, model_size)] *)
Definition transcribe (E : env) (audio_path device model_size : string)
  : M (string * list segment) :=
  let logger := "transcribe" in
  stopwatch_do (Timer.start "Transcription") ;;
  initial_result <-
    call_out (Call_whisperx_transcribe model_size device audio_path)
             (whisperx_transcribe E model_size device audio_path) ;;
  let language := rec_language initial_result in
  aligned_result <-
    call_out (Call_whisperx_align language audio_path device)
             (whisperx_align E (rec_segments initial_result) language
                             audio_path device) ;;
  let segments : list segment := aligned_result in
  log logger INFO ("Language: " ++ language) ;;
  for_each segments
    (fun segment _ =>
       log logger DEBUG
           ("[" ++ format_2f E (start segment) ++ "s -> "
                ++ format_2f E (end_ segment) ++ "s] " ++ text segment))
    tt ;;
  stopwatch_do (Timer.stop "Transcription") ;;
  ret (language, segments).

(** [enumerate(xs, start=i)] *)
Fixpoint enumerate {A : Type} (xs : list A) (i : Z) : list (Z * A) :=
  match xs with
  | [] => []
  | x :: rest => (i, x) :: enumerate rest (i + 1)
  end.

(** The list [srt_content] that [generate_subtitles] builds before joining:
    three entries per segment. *)
Definition srt_content (E : env) (segments : list segment) : list string :=
  fold_left
    (fun srt_content (p : Z * segment) =>
       let '(i, segment) := p in
       let segment_start := format_time E (start segment) in
       let segment_end := format_time E (end_ segment) in
       let text := strip (text segment) in
       let srt_content :=
         (srt_content ++ [(linesep E ++ str_of_int i)%string])%list in
       let srt_content :=
         (srt_content ++ [(segment_start ++ " --> " ++ segment_end)%string])%list in
       (srt_content ++ [(text ++ linesep E)%string])%list)
    (enumerate segments 1) [].

(** [generate_subtitles(segments)] *)
Definition generate_subtitles (E : env) (segments : list segment) : string :=
  Py.join (linesep E) (srt_content E segments).

(** The body of the loop of [post_process], on one iterated element. *)
Definition clip_line (line : string) : M string :=
  let logger := "post_process" in
  if (150 <? String.length line)%nat then
    try_except_on is_ValueError
      (parts <- lift (rsplit1 " " (take 150 line)) ;;
       lift (index0 parts))
      (fun _ =>
         log logger WARNING
             ("Line too long and cannot be split: " ++ line
                ++ ". Clipping to 150 characters.") ;;
         ret (take 150 line))
  else ret line.

(** [post_process(subtitles)]: the loop runs over the string itself. *)
Definition post_process (subtitles : string) : M string :=
  let subtitles_clean := EmptyString in
  for_each (iter_str subtitles)
    (fun line subtitles_clean =>
       line <- clip_line line ;;
       ret (subtitles_clean ++ line))
    subtitles_clean.

(** One turn of the loop of [main], on one media file. *)
Definition process_media_file (E : env) (a : args) (media_file : string * bool)
  : M unit :=
  let logger := "main" in
  let input_media_path := fst media_file in
  let audio_flag := snd media_file in
  parts <- lift (rsplit1 "." input_media_path) ;;
  stem <- lift (index0 parts) ;;
  let file_name := OsPath.basename stem in
  stopwatch_do (Timer.start file_name) ;;
  audio_path <-
    (if negb audio_flag then
       log logger INFO ("Processing video file: " ++ input_media_path) ;;
       extract_audio E input_media_path
     else
       log logger INFO ("Processing audio file: " ++ input_media_path) ;;
       ret input_media_path) ;;
  preference <- lift (lower_opt (compute_device a)) ;;
  device <- get_device E (Some preference) ;;
  let model := lower (model_size a) in
  r <- transcribe E audio_path device model ;;
  let '(language, segments) := r in
  let subtitles_raw := generate_subtitles E segments in
  subtitles <- post_process subtitles_raw ;;
  let subtitle_file_name := file_name ++ ".ai-" ++ language ++ ".srt" in
  let subtitle_path :=
    OsPath.join (OsPath.dirname input_media_path) subtitle_file_name in
  try_except
    (call_out (Call_open_w subtitle_path) (open_w E subtitle_path) ;;
     write_file subtitle_path subtitles ;;
     log logger INFO ("Subtitle file generated: " ++ subtitle_file_name))
    (fun e =>
       log logger ERROR
           ("An error occurred while writing the subtitle file: "
              ++ exn_str e)) ;;
  stopwatch_do (Timer.stop file_name).

(** The loop of [main] over the media files. *)
Definition process_media_files (E : env) (a : args)
  (media_files : list (string * bool)) : M unit :=
  for_each media_files (fun media_file _ => process_media_file E a media_file) tt.

(** [args.directory and not os.path.isdir(args.directory)] *)
Definition missing_directory (E : env) (a : args) : bool :=
  match directory a with
  | Some d => truthy d && negb (os_path_isdir E d)
  | None => false
  end.

(** [args.file and not os.path.isfile(args.file)] *)
Definition missing_file (E : env) (a : args) : bool :=
  match file a with
  | Some f => truthy f && negb (os_path_isfile E f)
  | None => false
  end.

Definition arg_text (o : option string) : string :=
  match o with Some s => s | None => "None" end.

(** [main()], from the parsed arguments on. *)
Definition main (E : env) (a : args) : M unit :=
  let logger := "main" in
  if missing_directory E a then
    log logger ERROR
        ("Error: Directory '" ++ arg_text (directory a) ++ "' does not exist.")
  else if missing_file E a then
    log logger ERROR
        ("Error: File '" ++ arg_text (file a) ++ "' does not exist.")
  else
    media_files <- get_media_files E (directory a) (file a) ;;
    match media_files with
    | None | Some [] => ret tt
    | Some (mf :: rest) =>
        process_media_files E a (mf :: rest) ;;
        stopwatch_do Timer.summary
    end.

(** ** A reference rendering of times, and fixtures *)

(** [z] in decimal, padded with zeros on the left to [width] digits. *)
Definition zero_pad (width : nat) (z : Z) : string :=
  let digits := str_of_int z in
  OsPath.mul_str "0" (width - String.length digits) ++ digits.

(** The whole milliseconds in a non-negative finite float (0 otherwise). *)
Definition millis_of_float (x : float) : Z :=
  match Prim2SF x with
  | S754_finite false m e =>
      if (0 <=? e)%Z then (Zpos m * 2 ^ e * 1000)%Z
      else ((Zpos m * 1000) / 2 ^ (- e))%Z
  | _ => 0%Z
  end.

(** Modelled from the spec: [timer.Timer.format_time] of [utils/timer.py],
    which is not part of the sources at hand.  Seconds become
    [HH:MM:SS,mmm], zero padded, with no bound on the hours. *)
Definition spec_format_time (seconds : float) : string :=
  let ms := millis_of_float seconds in
  zero_pad 2 (ms / 3600000) ++ ":" ++ zero_pad 2 ((ms / 60000) mod 60) ++ ":"
    ++ zero_pad 2 ((ms / 1000) mod 60) ++ "," ++ zero_pad 3 (ms mod 1000).

(** The format [:.2f] on a non-negative finite float: the exact value
    rounded to hundredths, ties to even. *)
Definition fixed_2f (x : float) : string :=
  let hundredths :=
    match Prim2SF x with
    | S754_finite false m e =>
        if (0 <=? e)%Z then (Zpos m * 2 ^ e * 100)%Z
        else
          let d := (2 ^ (- e))%Z in
          let q := ((Zpos m * 100) / d)%Z in
          let r := ((Zpos m * 100) mod d)%Z in
          match (2 * r ?= d)%Z with
          | Lt => q
          | Eq => (q + q mod 2)%Z
          | Gt => (q + 1)%Z
          end
    | _ => 0%Z
    end in
  str_of_int (hundredths / 100) ++ "." ++ zero_pad 2 (hundredths mod 100).

Definition seg (a b : float) (t : string) : segment :=
  {| start := a; end_ := b; text := t |}.

(** A machine without an accelerator; a directory [media] holding the
    video [b.mp4], the text file [notes.txt] and the audio file [a.mp3], and
    a directory [docs] holding text files only; transcription of
    [audio-b.mp3] fails, every other call succeeds. *)
Definition demo_env : env :=
  {| cuda_is_available := Ok false;
     ffmpeg_probe := fun p =>
       if String.eqb p "media/a.mp3" then Ok {| streams := [{| codec_type := "audio" |}] |}
       else if String.eqb p "media/b.mp4"
       then Ok {| streams := [{| codec_type := "video" |}; {| codec_type := "audio" |}] |}
       else Raise (RuntimeError "ffprobe error");
     ffmpeg_run := fun _ => Ok tt;
     os_walk := fun d =>
       if String.eqb d "media" then [("media", [], ["b.mp4"; "notes.txt"; "a.mp3"])]
       else if String.eqb d "docs"
       then [("docs", ["old"], ["readme.txt"]); ("docs/old", [], ["draft.txt"])]
       else [];
     os_path_isdir := fun d => String.eqb d "media" || String.eqb d "docs";
     os_path_isfile := fun f =>
       String.eqb f "media/a.mp3" || String.eqb f "media/b.mp4"
       || String.eqb f "media/notes.txt";
     whisperx_transcribe := fun _ _ audio =>
       if String.eqb audio "audio-b.mp3" then Raise (RuntimeError "model error")
       else Ok {| rec_language := "en";
                  rec_segments := [seg 0 1.5 " Hello there. ";
                                   seg 3725.5 3727 "General Kenobi."] |};
     whisperx_align := fun segments _ _ _ => Ok segments;
     open_w := fun _ => Ok tt;
     linesep := String (ascii_of_nat 10) EmptyString;
     format_time := spec_format_time;
     format_2f := fixed_2f |}.

Definition demo_args (dev : option string) : args :=
  {| file := None; directory := Some "media"; compute_device := dev;
     model_size := "base.en"; log_level_arg := "ERROR" |}.

(** A line of 201 characters with one space, at index 100. *)
Definition long_line : string :=
  OsPath.mul_str "a" 100 ++ " " ++ OsPath.mul_str "b" 100.


(** ** Definitions used to state the properties *)

(** The block of three entries that one segment contributes. *)
Definition srt_block (E : env) (i : Z) (s : segment) : list string :=
  [linesep E ++ str_of_int i;
   format_time E (start s) ++ " --> " ++ format_time E (end_ s);
   strip (text s) ++ linesep E].

(** The first entry of each block of three. *)
Fixpoint index_lines (lines : list string) : list string :=
  match lines with
  | a :: _ :: _ :: rest => a :: index_lines rest
  | _ => []
  end.

(** The index written on an index line: the numeral after the line
    separator. *)
Definition read_index (E : env) (line : string) : option Z :=
  int_of_str (drop (String.length (linesep E)) line).

(** The pair that [is_media_file] returns for a path. *)
Definition media_kind (E : env) (file_path : string) : bool * bool :=
  match fst (is_media_file E file_path world0) with
  | Ok r => r
  | Raise _ => (false, false)
  end.

(** The valid media among the files of one directory, in order. *)
Definition file_candidates (E : env) (root : string) (files : list string)
  : list (string * bool) :=
  flat_map
    (fun f =>
       let file_path := OsPath.join root f in
       if fst (media_kind E file_path)
       then [(file_path, snd (media_kind E file_path))]
       else [])
    files.

(** The valid media that the walk of a directory meets, in walk order. *)
Definition walk_candidates (E : env) (d : string) : list (string * bool) :=
  flat_map
    (fun entry : string * list string * list string =>
       let '(root, _, files) := entry in file_candidates E root files)
    (os_walk E d).

(** The audio artifact that [extract_audio] names for a source. *)
Definition artifact_path (video_path : string) : string :=
  "audio-" ++ fst (OsPath.splitext (OsPath.basename video_path)) ++ ".mp3".

(** The collaborator calls made for a candidate before the device is
    chosen: the transcoding of a video, nothing for an audio file. *)
Definition calls_before_device (media_file : string * bool) : list call :=
  if snd media_file then []
  else [Call_ffmpeg_run
          (extraction_request (fst media_file)
                              (artifact_path (fst media_file)))].

(** The device that [get_device] settles on. *)
Definition chosen_device (E : env) (device_selection : option string) : string :=
  if match device_selection with
     | None => true
     | Some s => contains "cuda" (lower s)
     end
  then match cuda_is_available E with
       | Ok true => "cuda"
       | _ => "cpu"
       end
  else "cpu".

(** The audio that is handed to [transcribe] for a candidate. *)
Definition audio_of (media_file : string * bool) : string :=
  if snd media_file then fst media_file else artifact_path (fst media_file).

(** The records that the logger [main] wrote at level ERROR. *)
Definition main_errors (w : world) : list log_record :=
  filter
    (fun r =>
       String.eqb (logger r) "main"
       && match level r with ERROR => true | _ => false end)
    (logs w).

(** Whether a preference makes [get_device] probe the accelerator: it is
    absent, or it mentions cuda in any case. *)
Definition wants_cuda (device_selection : option string) : bool :=
  match device_selection with
  | None => true
  | Some s => contains "cuda" (lower s)
  end.

(** The pair of flags that [is_media_file] derives from a codec type. *)
Definition flags_of_codec (stream_type : string) : bool * bool :=
  (String.eqb stream_type "audio" || String.eqb stream_type "video",
   String.eqb stream_type "audio").

(** The paths of the regular files that the walk of a directory meets, in
    walk order. *)
Definition walked_files (E : env) (d : string) : list string :=
  flat_map
    (fun entry : string * list string * list string =>
       let '(root, _, files) := entry in map (OsPath.join root) files)
    (os_walk E d).

(** The candidates that the directory argument contributes. *)
Definition directory_candidates (E : env) (directory : option string)
  : list (string * bool) :=
  match directory with
  | Some d => if truthy d then walk_candidates E d else []
  | None => []
  end.

(** Fixtures: an environment with another answer of one collaborator. *)
Definition with_cuda (o : outcome bool) (E : env) : env :=
  {| cuda_is_available := o;
     ffmpeg_probe := ffmpeg_probe E; ffmpeg_run := ffmpeg_run E;
     os_walk := os_walk E; os_path_isdir := os_path_isdir E;
     os_path_isfile := os_path_isfile E;
     whisperx_transcribe := whisperx_transcribe E;
     whisperx_align := whisperx_align E; open_w := open_w E;
     linesep := linesep E; format_time := format_time E;
     format_2f := format_2f E |}.

Definition with_ffmpeg_run (f : ExtractionRequest -> outcome unit) (E : env)
  : env :=
  {| cuda_is_available := cuda_is_available E;
     ffmpeg_probe := ffmpeg_probe E; ffmpeg_run := f;
     os_walk := os_walk E; os_path_isdir := os_path_isdir E;
     os_path_isfile := os_path_isfile E;
     whisperx_transcribe := whisperx_transcribe E;
     whisperx_align := whisperx_align E; open_w := open_w E;
     linesep := linesep E; format_time := format_time E;
     format_2f := format_2f E |}.

Definition with_align
  (f : list segment -> string -> string -> string -> outcome (list segment))
  (E : env) : env :=
  {| cuda_is_available := cuda_is_available E;
     ffmpeg_probe := ffmpeg_probe E; ffmpeg_run := ffmpeg_run E;
     os_walk := os_walk E; os_path_isdir := os_path_isdir E;
     os_path_isfile := os_path_isfile E;
     whisperx_transcribe := whisperx_transcribe E;
     whisperx_align := f; open_w := open_w E;
     linesep := linesep E; format_time := format_time E;
     format_2f := format_2f E |}.

Definition with_open_w (f : string -> outcome unit) (E : env) : env :=
  {| cuda_is_available := cuda_is_available E;
     ffmpeg_probe := ffmpeg_probe E; ffmpeg_run := ffmpeg_run E;
     os_walk := os_walk E; os_path_isdir := os_path_isdir E;
     os_path_isfile := os_path_isfile E;
     whisperx_transcribe := whisperx_transcribe E;
     whisperx_align := whisperx_align E; open_w := f;
     linesep := linesep E; format_time := format_time E;
     format_2f := format_2f E |}.

(** The value of [get_media_files], read off its two blocks: the walk
    gives up on an empty result, then the file is appended or gives up. *)
Definition discovered (E : env) (directory file : option string)
  : option (list (string * bool)) :=
  let found := directory_candidates E directory in
  if truthy_opt directory && match found with [] => true | _ => false end
  then None
  else match file with
       | Some f =>
           if truthy f then
             if fst (media_kind E f)
             then Some (found ++ [(f, snd (media_kind E f))])%list
             else None
           else Some found
       | None => Some found
       end.

(** The paths that [get_media_files] probes, in order. *)
Definition probed_paths (E : env) (directory file : option string)
  : list string :=
  let walked :=
    match directory with
    | Some d => if truthy d then walked_files E d else []
    | None => []
    end in
  if truthy_opt directory
     && match directory_candidates E directory with [] => true | _ => false end
  then walked
  else (walked ++ match file with
                  | Some f => if truthy f then [f] else []
                  | None => []
                  end)%list.

(** The record that [transcribe] logs for one segment. *)
Definition segment_record (E : env) (s : segment) : log_record :=
  {| logger := "transcribe"; level := DEBUG;
     message := "[" ++ format_2f E (start s) ++ "s -> "
                    ++ format_2f E (end_ s) ++ "s] " ++ text s |}.

(** [p.rsplit(".", 1)[0]]: the path up to its last dot, the whole path
    when it has none. *)
Definition stem_of (p : string) : string :=
  match rfind_nat "." p with
  | Some i => take i p
  | None => p
  end.

(** The path of the subtitle file that [main] writes for a source and a
    language. *)
Definition subtitle_path (input_media_path language : string) : string :=
  OsPath.join (OsPath.dirname input_media_path)
              (OsPath.basename (stem_of input_media_path)
                 ++ ".ai-" ++ language ++ ".srt").

(** The last step of a turn of the loop of [main]: the write of the
    subtitle file under its handler, then the stop of the stopwatch. *)
Definition write_step (E : env) (input_media_path language subtitles : string)
  : M unit :=
  try_except
    (call_out (Call_open_w (subtitle_path input_media_path language))
              (open_w E (subtitle_path input_media_path language)) ;;
     write_file (subtitle_path input_media_path language) subtitles ;;
     log "main" INFO
         ("Subtitle file generated: "
            ++ OsPath.basename (stem_of input_media_path)
            ++ ".ai-" ++ language ++ ".srt"))
    (fun e =>
       log "main" ERROR
           ("An error occurred while writing the subtitle file: "
              ++ exn_str e)) ;;
  stopwatch_do (Timer.stop (OsPath.basename (stem_of input_media_path))).

(** What a turn of the loop of [main] writes when every collaborator
    answers: the subtitle path and the rendered segments; [None] when
    recognition, alignment or the opening of the file raises. *)
Definition expected_subtitle (E : env) (preference model_size : string)
  (media_file : string * bool) : option (string * string) :=
  let device := chosen_device E (Some (lower preference)) in
  match whisperx_transcribe E (lower model_size) device (audio_of media_file) with
  | Ok r =>
      match whisperx_align E (rec_segments r) (rec_language r)
                           (audio_of media_file) device with
      | Ok aligned =>
          match open_w E (subtitle_path (fst media_file) (rec_language r)) with
          | Ok _ =>
              Some (subtitle_path (fst media_file) (rec_language r),
                    generate_subtitles E aligned)
          | Raise _ => None
          end
      | Raise _ => None
      end
  | Raise _ => None
  end.

(** Whether a string is made of dots only (the empty string included):
    the file names that [os.path.splitext] leaves whole. *)
Fixpoint all_dots (s : string) : bool :=
  match s with
  | EmptyString => true
  | String c s' => Ascii.eqb c "." && all_dots s'
  end.











(** * Properties *)

(** ** Strings and numerals *)

Lemma append_empty_r (s : string) : s ++ "" = s.
Proof. induction s as [|c s IH]; simpl; [reflexivity | now rewrite IH]. Qed.

Lemma append_assoc (a b c : string) : (a ++ b) ++ c = a ++ (b ++ c).
Proof. induction a as [|x a IH]; simpl; [reflexivity | now rewrite IH]. Qed.

Lemma length_append (a b : string) :
  String.length (a ++ b) = (String.length a + String.length b)%nat.
Proof. induction a as [|x a IH]; simpl; [reflexivity | now rewrite IH]. Qed.

Lemma drop_append (a b : string) : drop (String.length a) (a ++ b) = b.
Proof. induction a as [|x a IH]; simpl; [now destruct b | exact IH]. Qed.

(** [int(str(i)) == i] *)
Lemma int_of_str_of_int (i : Z) : int_of_str (str_of_int i) = Some i.
Proof.
  unfold int_of_str, str_of_int.
  rewrite NilZero.isi.
  - simpl. now rewrite DecimalZ.of_to.
  - destruct i as [|p|p]; simpl; try discriminate.
    intros [= H]. now apply (Unsigned.to_uint_nonnil p).
  - destruct i as [|p|p]; simpl; try discriminate.
    intros [= H]. now apply (Unsigned.to_uint_nonnil p).
Qed.

(** ** Running the monad *)

Lemma bind_ok {A B : Type} (m : M A) (f : A -> M B) (w w' : world) (a : A) :
  m w = (Ok a, w') -> bind m f w = f a w'.
Proof. intros H. unfold bind. now rewrite H. Qed.

Lemma bind_raise {A B : Type} (m : M A) (f : A -> M B) (w w' : world) (e : exn) :
  m w = (Raise e, w') -> bind m f w = (Raise e, w').
Proof. intros H. unfold bind. now rewrite H. Qed.

Lemma bind_lift_ok {A B : Type} (a : A) (f : A -> M B) (w : world) :
  bind (lift (Ok a)) f w = f a w.
Proof. reflexivity. Qed.

Lemma bind_lift_raise {A B : Type} (e : exn) (f : A -> M B) (w : world) :
  bind (lift (Raise e)) f w = (Raise e, w).
Proof. reflexivity. Qed.

(** ** [post_process] *)

(** An element of the iteration over a string is one character long, so
    the length test of [clip_line] never fires on it. *)
Lemma clip_line_char (c : ascii) (w : world) :
  clip_line (String c "") w = (Ok (String c ""), w).
Proof. reflexivity. Qed.

Lemma post_process_loop (s acc : string) (w : world) :
  for_each (iter_str s)
    (fun line subtitles_clean =>
       line <- clip_line line ;; ret (subtitles_clean ++ line))
    acc w
  = (Ok (acc ++ s), w).
Proof.
  revert acc. induction s as [|c s IH]; intros acc.
  - simpl. unfold ret. now rewrite append_empty_r.
  - cbn [iter_str for_each].
    erewrite bind_ok.
    2: { erewrite bind_ok by apply clip_line_char. reflexivity. }
    rewrite IH. now rewrite append_assoc.
Qed.

(** C3: [post_process] returns its argument unchanged, in every world and
    without effect: its loop runs over the characters of the string, and no
    character is longer than 150. *)
Theorem post_process_identity (subtitles : string) (w : world) :
  post_process subtitles w = (Ok subtitles, w).
Proof. unfold post_process. now rewrite post_process_loop. Qed.

(** C8: rendering no segment and post-processing the result gives the empty
    string. *)
Theorem render_post_process_empty (E : env) (w : world) :
  generate_subtitles E [] = ""
  /\ (subtitles_raw <- ret (generate_subtitles E []) ;;
      post_process subtitles_raw) w = (Ok "", w).
Proof. split; reflexivity. Qed.

(** C1: the rendering of one segment whose text is a line of 201
    characters with a space at index 100 comes back from [post_process]
    whole, the long line included, although the loop body applied to that
    line would cut it to the 100 characters before the space. *)
Theorem post_process_keeps_long_line :
  String.length long_line = 201%nat
  /\ contains " " (take 151 long_line) = true
  /\ generate_subtitles demo_env [seg 0 1.5 long_line]
     = Py.join (linesep demo_env)
         [""; "1"; "00:00:00,000 --> 00:00:01,500"; long_line; ""]
  /\ post_process (generate_subtitles demo_env [seg 0 1.5 long_line]) world0
     = (Ok (generate_subtitles demo_env [seg 0 1.5 long_line]), world0)
  /\ clip_line long_line world0 = (Ok (OsPath.mul_str "a" 100), world0).
Proof. repeat split; vm_compute; reflexivity. Qed.

(** ** [get_device] *)

(** What [get_device] returns, whatever the preference and the probe. *)
Lemma get_device_value (E : env) (device_selection : option string) (w : world) :
  fst (get_device E device_selection w)
  = Ok (if match device_selection with
           | None => true
           | Some s => contains "cuda" (lower s)
           end
        then match cuda_is_available E with
             | Ok true => "cuda"
             | _ => "cpu"
             end
        else "cpu").
Proof.
  unfold get_device.
  destruct (match device_selection with
            | None => true
            | Some s => contains "cuda" (lower s)
            end); [|reflexivity].
  unfold bind, try_except, call_out, log, ret.
  destruct (cuda_is_available E) as [[|]|e]; reflexivity.
Qed.

(** C5: [get_device] never raises and returns cuda or cpu; when the probe
    answers false or raises, it returns cpu, for every preference. *)
Theorem get_device_falls_back (E : env) (device_selection : option string)
  (w : world) :
  (exists d, fst (get_device E device_selection w) = Ok d
             /\ (d = "cuda" \/ d = "cpu"))
  /\ (cuda_is_available E <> Ok true ->
      fst (get_device E device_selection w) = Ok "cpu").
Proof.
  rewrite get_device_value. split.
  - destruct (match device_selection with
              | None => true
              | Some s => contains "cuda" (lower s)
              end); [|eauto].
    destruct (cuda_is_available E) as [[|]|e]; eauto.
  - intros H.
    destruct (match device_selection with
              | None => true
              | Some s => contains "cuda" (lower s)
              end); [|reflexivity].
    destruct (cuda_is_available E) as [[|]|e]; try reflexivity.
    now contradiction H.
Qed.

(** ** [extract_audio] *)

Lemma contains_false_rfind (sub s : string) :
  contains sub s = false -> rfind_nat sub s = None.
Proof.
  unfold contains. induction s as [|c s IH]; simpl.
  - destruct (startswith sub ""); [discriminate | reflexivity].
  - destruct (startswith sub (String c s)); [discriminate|].
    destruct (find_nat sub s); [discriminate|].
    intros _. now rewrite IH.
Qed.

Lemma rfind_nat_last (c : ascii) (a b : string) :
  contains (String c "") b = false ->
  rfind_nat (String c "") (a ++ String c b) = Some (String.length a).
Proof.
  intros H. induction a as [|x a IH].
  - cbn [append rfind_nat]. rewrite (contains_false_rfind _ _ H).
    simpl. now rewrite Ascii.eqb_refl.
  - cbn [append rfind_nat String.length]. now rewrite IH.
Qed.

Lemma take_append (a b : string) : take (String.length a) (a ++ b) = a.
Proof. induction a as [|x a IH]; simpl; [now destruct b | now rewrite IH]. Qed.

Lemma contains_append_false (sub a b : string) :
  contains sub (a ++ b) = false -> contains sub b = false.
Proof.
  unfold contains. induction a as [|x a IH]; simpl; [easy|].
  destruct (startswith sub (String x (a ++ b))); [discriminate|].
  destruct (find_nat sub (a ++ b)); [discriminate|]. intros _. now apply IH.
Qed.

(** The artifact name of an ordinary path [dir/name.ext]: the name itself,
    when [name] is not empty and holds neither a slash nor a dot, and [ext]
    holds neither. *)
Lemma artifact_base_name (dir name ext : string) :
  truthy name = true ->
  contains "/" (name ++ "." ++ ext) = false ->
  contains "." name = false ->
  contains "." ext = false ->
  fst (OsPath.splitext (OsPath.basename (dir ++ "/" ++ name ++ "." ++ ext)))
  = name.
Proof.
  intros Hne Hslash Hdot Hext.
  assert (Hb : OsPath.basename (dir ++ "/" ++ name ++ "." ++ ext)
               = name ++ "." ++ ext).
  { unfold OsPath.basename, rfind.
    change (dir ++ "/" ++ name ++ "." ++ ext)
      with (dir ++ String "/" (name ++ "." ++ ext)).
    rewrite rfind_nat_last by exact Hslash.
    replace (Z.to_nat (Z.of_nat (String.length dir) + 1))
      with (String.length (dir ++ "/")).
    2: { rewrite length_append. simpl. lia. }
    change (dir ++ String "/" (name ++ "." ++ ext))
      with (dir ++ "/" ++ (name ++ "." ++ ext)).
    rewrite <- append_assoc. apply drop_append. }
  rewrite Hb. unfold OsPath.splitext, rfind.
  rewrite (contains_false_rfind _ _ Hslash).
  change (name ++ "." ++ ext) with (name ++ String "." ext).
  rewrite rfind_nat_last by exact Hext.
  destruct name as [|c name]; [discriminate|].
  replace (-1 <? Z.of_nat (String.length (String c name)))%Z with true
    by (symmetry; apply Z.ltb_lt; lia).
  rewrite Nat2Z.id. change (Z.to_nat (-1 + 1)) with 0%nat.
  rewrite Nat.sub_0_r.
  cbn [String.length OsPath.splitext_scan drop take append].
  assert (Hc : String.eqb (String c "") "." = false).
  { unfold contains in Hdot. cbn [find_nat startswith] in Hdot.
    destruct (Ascii.eqb "." c) eqn:Heq; [discriminate|].
    cbn [String.eqb]. rewrite Ascii.eqb_sym. now rewrite Heq. }
  rewrite Hc. cbn [negb fst]. f_equal.
  apply (take_append name (String "." ext)).
Qed.

(** ** [generate_subtitles] *)

Lemma enumerate_fst {A : Type} (xs : list A) (k : nat) :
  map fst (enumerate xs (Z.of_nat k))
  = map Z.of_nat (seq k (List.length xs)).
Proof.
  revert k. induction xs as [|x xs IH]; intros k; simpl; [reflexivity|].
  f_equal. rewrite <- IH. do 2 f_equal. lia.
Qed.

Lemma enumerate_snd {A : Type} (xs : list A) (i : Z) :
  map snd (enumerate xs i) = xs.
Proof.
  revert i. induction xs as [|x xs IH]; intros i; simpl; [reflexivity|].
  now rewrite IH.
Qed.

(** The appends of the loop lay the blocks one after the other. *)
Lemma srt_content_blocks (E : env) (ps : list (Z * segment)) (acc : list string) :
  fold_left
    (fun srt_content (p : Z * segment) =>
       let '(i, segment) := p in
       let segment_start := format_time E (start segment) in
       let segment_end := format_time E (end_ segment) in
       let text := strip (text segment) in
       let srt_content :=
         (srt_content ++ [(linesep E ++ str_of_int i)%string])%list in
       let srt_content :=
         (srt_content ++ [(segment_start ++ " --> " ++ segment_end)%string])%list in
       (srt_content ++ [(text ++ linesep E)%string])%list)
    ps acc
  = (acc ++ flat_map (fun p => srt_block E (fst p) (snd p)) ps)%list.
Proof.
  revert acc. induction ps as [|[i s] ps IH]; intros acc.
  - simpl. now rewrite app_nil_r.
  - cbn [fold_left flat_map fst snd]. rewrite IH. unfold srt_block.
    now rewrite <- !app_assoc.
Qed.

Lemma index_lines_blocks (E : env) (ps : list (Z * segment)) :
  map (read_index E)
      (index_lines (flat_map (fun p => srt_block E (fst p) (snd p)) ps))
  = map (fun p => Some (fst p)) ps.
Proof.
  induction ps as [|[i s] ps IH]; [reflexivity|].
  cbn [flat_map srt_block app index_lines map fst snd]. rewrite IH. f_equal.
  unfold read_index. rewrite drop_append. apply int_of_str_of_int.
Qed.

(** The entries that [generate_subtitles] joins are one block per segment;
    the blocks carry the indices 1, 2, ..., n for n segments and the
    segments in their input order, and the numerals read back from the
    index entries are 1, 2, ..., n. *)
Lemma srt_content_indices (E : env) (segments : list segment) :
  generate_subtitles E segments
  = Py.join (linesep E)
      (flat_map (fun p => srt_block E (fst p) (snd p)) (enumerate segments 1))
  /\ map fst (enumerate segments 1)
     = map Z.of_nat (seq 1 (List.length segments))
  /\ map snd (enumerate segments 1) = segments
  /\ map (read_index E) (index_lines (srt_content E segments))
     = map (fun k => Some (Z.of_nat k)) (seq 1 (List.length segments)).
Proof.
  assert (Hc : srt_content E segments
               = flat_map (fun p => srt_block E (fst p) (snd p))
                          (enumerate segments 1)).
  { unfold srt_content. now rewrite srt_content_blocks. }
  repeat split.
  - unfold generate_subtitles. now rewrite Hc.
  - apply (enumerate_fst segments 1).
  - apply enumerate_snd.
  - rewrite Hc, index_lines_blocks.
    pose proof (enumerate_fst segments 1) as Hi.
    change (Z.of_nat 1) with 1%Z in Hi.
    rewrite <- (map_map fst Some), Hi. now rewrite map_map.
Qed.

(** ** [get_media_files] *)

(** [is_media_file] returns the same pair in every world, never raises and
    writes no file. *)
Lemma is_media_file_run (E : env) (file_path : string) (w : world) :
  exists w', is_media_file E file_path w = (Ok (media_kind E file_path), w')
             /\ written w' = written w.
Proof.
  unfold media_kind, is_media_file, try_except, bind, call_out, log, ret.
  cbn [fst].
  destruct (ffmpeg_probe E file_path) as [probe|e]; [|cbn; eauto].
  destruct (streams probe) as [|s0 l]; [cbn; eauto|].
  destruct (String.eqb (codec_type s0) "audio"),
    (String.eqb (codec_type s0) "video"); cbn; eauto.
Qed.

Lemma scan_files_run (E : env) (root : string) (files : list string)
  (acc : list (string * bool)) (w : world) :
  exists w', scan_files E root files acc w
             = (Ok (acc ++ file_candidates E root files)%list, w')
             /\ written w' = written w.
Proof.
  unfold scan_files. revert acc w.
  induction files as [|f files IH]; intros acc w.
  - exists w. cbn. now rewrite app_nil_r.
  - cbn [for_each file_candidates flat_map].
    destruct (is_media_file_run E (OsPath.join root f) w) as (w1 & H1 & Hw1).
    destruct (media_kind E (OsPath.join root f)) as [[|] is_audio] eqn:Hk.
    + destruct (IH (acc ++ [(OsPath.join root f, is_audio)])%list w1)
        as (w2 & H2 & Hw2).
      exists w2. split; [|congruence].
      erewrite bind_ok.
      2: { erewrite bind_ok by exact H1. reflexivity. }
      rewrite H2. cbn [fst snd]. now rewrite <- app_assoc.
    + destruct (IH acc w1) as (w2 & H2 & Hw2).
      exists w2. split; [|congruence].
      erewrite bind_ok.
      2: { erewrite bind_ok by exact H1. reflexivity. }
      rewrite H2. reflexivity.
Qed.

Lemma walk_run (E : env) (entries : list (string * list string * list string))
  (acc : list (string * bool)) (w : world) :
  exists w',
    for_each entries
      (fun entry media_files =>
         let '(root, _, files) := entry in scan_files E root files media_files)
      acc w
    = (Ok (acc ++ flat_map
                    (fun entry : string * list string * list string =>
                       let '(root, _, files) := entry in
                       file_candidates E root files)
                    entries)%list, w')
    /\ written w' = written w.
Proof.
  revert acc w. induction entries as [|[[root dirs] files] entries IH];
    intros acc w.
  - exists w. cbn. now rewrite app_nil_r.
  - cbn [for_each flat_map].
    destruct (scan_files_run E root files acc w) as (w1 & H1 & Hw1).
    destruct (IH (acc ++ file_candidates E root files)%list w1)
      as (w2 & H2 & Hw2).
    exists w2. split; [|congruence].
    erewrite bind_ok by exact H1. rewrite H2. now rewrite <- app_assoc.
Qed.

(** C9: when the directory argument is a non-empty path and the walk meets
    no valid media file, [get_media_files] returns [None], whatever the file
    argument, and its last log record is the error about the directory. *)
Theorem get_media_files_empty_walk (E : env) (d : string)
  (file : option string) (w : world) :
  truthy d = true ->
  walk_candidates E d = [] ->
  fst (get_media_files E (Some d) file w) = Ok None
  /\ exists pre,
       logs (snd (get_media_files E (Some d) file w))
       = (pre ++ [{| logger := "get_media_files"; level := ERROR;
                     message := "No valid media files found in directory '"
                                  ++ d ++ "'" |}])%list.
Proof.
  intros Hd Hwalk. unfold get_media_files. rewrite Hd.
  destruct (walk_run E (os_walk E d) [] w) as (w1 & H1 & _).
  fold (walk_candidates E d) in H1. rewrite Hwalk in H1. cbn [app] in H1.
  erewrite bind_ok.
  2: { erewrite bind_ok by exact H1. reflexivity. }
  cbn. split; [reflexivity|]. now exists (logs w1).
Qed.

(** When the file argument is a non-empty path that is not valid media,
    [get_media_files] returns [None], whatever the directory argument and
    whatever the walk found. *)
Lemma get_media_files_invalid_file_any_directory (E : env)
  (directory : option string)
  (f : string) (w : world) :
  truthy f = true ->
  fst (media_kind E f) = false ->
  fst (get_media_files E directory (Some f) w) = Ok None.
Proof.
  intros Hf Hk. unfold get_media_files. rewrite Hf.
  assert (Hfile : forall (l : list (string * bool)) (w1 : world),
             fst ((r <- is_media_file E f ;;
                   let '(is_valid, is_audio) := r in
                   if (is_valid : bool)
                   then ret (Some (l ++ [(f, is_audio)])%list)
                   else
                     log "get_media_files" ERROR
                         ("Error: File '" ++ f ++ "' is not a valid media file.") ;;
                     ret None) w1) = Ok None).
  { intros l w1. destruct (is_media_file_run E f w1) as (w2 & H2 & _).
    erewrite bind_ok by exact H2.
    destruct (media_kind E f) as [[|] is_audio]; [discriminate Hk|].
    reflexivity. }
  destruct directory as [d|].
  - destruct (truthy d).
    + destruct (walk_run E (os_walk E d) [] w) as (w1 & H1 & _).
      cbn [app] in H1.
      destruct (flat_map _ (os_walk E d)) as [|c cs] eqn:Hc.
      * erewrite bind_ok.
        2: { erewrite bind_ok by exact H1. reflexivity. }
        reflexivity.
      * erewrite bind_ok.
        2: { erewrite bind_ok by exact H1. reflexivity. }
        apply Hfile.
    + erewrite bind_ok by reflexivity. apply Hfile.
  - erewrite bind_ok by reflexivity. apply Hfile.
Qed.

(** C4, as the spec has it, fails: the walk of [media] finds two
    candidates, [notes.txt] is not valid media, and the call with both
    arguments returns [None], so the candidates of the directory are lost. *)
Lemma get_media_files_loses_directory_candidates :
  fst (get_media_files demo_env (Some "media") None world0)
  = Ok (Some [("media/b.mp4", false); ("media/a.mp3", true)])
  /\ fst (media_kind demo_env "media/notes.txt") = false
  /\ fst (get_media_files demo_env (Some "media") (Some "media/notes.txt") world0)
     = Ok None.
Proof. repeat split. Qed.

(** ** The loop of [main] *)

Lemma extract_audio_run (E : env) (video_path : string) (w : world) :
  exists w',
    extract_audio E video_path w = (Ok (artifact_path video_path), w')
    /\ written w' = written w
    /\ calls w' = (calls w
                     ++ [Call_ffmpeg_run
                           (extraction_request video_path
                                               (artifact_path video_path))])%list.
Proof.
  unfold extract_audio, artifact_path.
  unfold bind, try_except, call_out, stopwatch_do, log, ret. cbn.
  destruct (ffmpeg_run E _) as [[]|e]; cbn; eauto.
Qed.

Lemma get_device_run (E : env) (device_selection : option string) (w : world) :
  exists w',
    get_device E device_selection w = (Ok (chosen_device E device_selection), w')
    /\ written w' = written w.
Proof.
  unfold get_device, chosen_device.
  destruct (match device_selection with
            | None => true
            | Some s => contains "cuda" (lower s)
            end); [|exists w; split; reflexivity].
  unfold bind, try_except, call_out, log, ret.
  destruct (cuda_is_available E) as [[|]|e]; cbn; eauto.
Qed.

(** The steps of one turn up to the choice of the device: they never
    raise, write no file and call the transcoder for a video only. *)
Lemma before_device_run (E : env) (media_file : string * bool) (w : world) :
  exists w',
    (if negb (snd media_file) then
       log "main" INFO ("Processing video file: " ++ fst media_file) ;;
       extract_audio E (fst media_file)
     else
       log "main" INFO ("Processing audio file: " ++ fst media_file) ;;
       ret (fst media_file)) w
    = (Ok (audio_of media_file), w')
    /\ written w' = written w
    /\ calls w' = (calls w ++ calls_before_device media_file)%list.
Proof.
  unfold audio_of, calls_before_device.
  destruct media_file as [path [|]]; cbn [fst snd negb].
  - eexists. unfold bind, log, ret. cbn. now rewrite app_nil_r.
  - unfold bind at 1. unfold log at 1.
    destruct (extract_audio_run E path
                {| logs := (logs w ++ [{| logger := "main"; level := INFO;
                                          message := "Processing video file: "
                                                       ++ path |}])%list;
                   stopwatch := stopwatch w; written := written w;
                   calls := calls w |}) as (w1 & H1 & Hw & Hc).
    exists w1. now rewrite H1.
Qed.

(** Without a preference, a turn of the loop ends in the [AttributeError]
    of [None.lower()], before any probe of the accelerator and before any
    transcription. *)
Lemma process_media_file_no_preference (E : env) (a : args)
  (media_file : string * bool) (w : world) :
  compute_device a = None ->
  exists w',
    process_media_file E a media_file w
    = (Raise (AttributeError "'NoneType' object has no attribute 'lower'"), w')
    /\ written w' = written w
    /\ calls w' = (calls w ++ calls_before_device media_file)%list.
Proof.
  intros Hnone. unfold process_media_file. rewrite Hnone. cbv zeta.
  unfold rsplit1.
  destruct (rfind_nat "." (fst media_file)) as [i|];
    rewrite bind_lift_ok; cbn [index0]; rewrite bind_lift_ok;
    (erewrite bind_ok by reflexivity);
    match goal with
    | |- exists w', bind _ _ ?w0 = _ /\ _ =>
        destruct (before_device_run E media_file w0) as (w1 & H1 & Hw & Hc)
    end;
    exists w1; (erewrite bind_ok by exact H1); cbn [lower_opt];
    rewrite bind_lift_raise; auto.
Qed.

(** When a turn of the loop raises, the loop raises: the later candidates
    are not processed. *)
Lemma process_media_files_raise (E : env) (a : args)
  (media_file : string * bool) (rest : list (string * bool))
  (w w' : world) (e : exn) :
  process_media_file E a media_file w = (Raise e, w') ->
  process_media_files E a (media_file :: rest) w = (Raise e, w').
Proof.
  intros H. unfold process_media_files. cbn [for_each].
  now apply bind_raise.
Qed.

(** C10: when the compute device is omitted and discovery returns at least
    one candidate, [main] ends in the [AttributeError] of [None.lower()],
    raised in the turn of the first candidate.  No subtitle file is written,
    and after discovery the only collaborator call is the transcoding of the
    first candidate when it is a video: the accelerator is not probed and
    nothing is transcribed. *)
Theorem main_without_compute_device (E : env) (a : args) (w w1 : world)
  (media_file : string * bool) (rest : list (string * bool)) :
  compute_device a = None ->
  missing_directory E a = false ->
  missing_file E a = false ->
  get_media_files E (directory a) (file a) w
  = (Ok (Some (media_file :: rest)), w1) ->
  exists w',
    main E a w
    = (Raise (AttributeError "'NoneType' object has no attribute 'lower'"), w')
    /\ written w' = written w1
    /\ calls w' = (calls w1 ++ calls_before_device media_file)%list.
Proof.
  intros Hnone Hdir Hfile Hfound. unfold main. rewrite Hdir, Hfile.
  destruct (process_media_file_no_preference E a media_file w1 Hnone)
    as (w2 & H2 & Hw & Hc).
  exists w2. split; [|auto].
  erewrite bind_ok by exact Hfound.
  apply bind_raise. now apply process_media_files_raise.
Qed.

(** A failed transcription of an audio candidate leaves the loop as the
    exception of the collaborator: no later candidate is processed and no
    file is written. *)
Lemma process_media_files_transcription_failure (E : env) (a : args)
  (path preference : string) (rest : list (string * bool)) (w : world)
  (e : exn) :
  compute_device a = Some preference ->
  whisperx_transcribe E (lower (model_size a))
                      (chosen_device E (Some (lower preference))) path
  = Raise e ->
  exists w',
    process_media_files E a ((path, true) :: rest) w = (Raise e, w')
    /\ written w' = written w.
Proof.
  intros Hpref Hfail.
  assert (H : exists w',
             process_media_file E a (path, true) w = (Raise e, w')
             /\ written w' = written w).
  { unfold process_media_file. rewrite Hpref. cbv zeta. cbn [fst snd negb].
    unfold rsplit1.
    destruct (rfind_nat "." path) as [i|];
      rewrite bind_lift_ok; cbn [index0]; rewrite bind_lift_ok;
      (erewrite bind_ok by reflexivity);
      (erewrite bind_ok by reflexivity);
      cbn [lower_opt]; rewrite bind_lift_ok;
      match goal with
      | |- exists w', bind _ _ ?w0 = _ /\ _ =>
          destruct (get_device_run E (Some (lower preference)) w0)
            as (w1 & H1 & Hw)
      end;
      (erewrite bind_ok by exact H1);
      eexists; (split; [apply bind_raise; unfold transcribe, bind, stopwatch_do,
                         call_out; rewrite Hfail; reflexivity|]); exact Hw. }
  destruct H as (w' & H & Hw). exists w'. split; [|exact Hw].
  now apply process_media_files_raise.
Qed.

(** C2: discovery in [media] returns the video [b.mp4], then the audio
    [a.mp3]; the transcription of the first fails; [main] ends in that
    exception, writes no subtitle file and logs no error of its own, while
    the loop on [a.mp3] alone writes [media/a.ai-en.srt]. *)
Theorem main_stops_at_failed_transcription :
  fst (get_media_files demo_env (Some "media") None world0)
  = Ok (Some [("media/b.mp4", false); ("media/a.mp3", true)])
  /\ fst (main demo_env (demo_args (Some "cpu")) world0)
     = Raise (RuntimeError "model error")
  /\ written (snd (main demo_env (demo_args (Some "cpu")) world0)) = []
  /\ main_errors (snd (main demo_env (demo_args (Some "cpu")) world0)) = []
  /\ fst (process_media_files demo_env (demo_args (Some "cpu"))
                              [("media/a.mp3", true)] world0) = Ok tt
  /\ map fst (written (snd (process_media_files demo_env (demo_args (Some "cpu"))
                                                [("media/a.mp3", true)] world0)))
     = ["media/a.ai-en.srt"].
Proof. repeat split; vm_compute; reflexivity. Qed.

(** ** Instances on the fixtures *)

Lemma get_device_falls_back_witness :
  fst (get_device demo_env None world0) = Ok "cpu".
Proof.
  apply (proj2 (get_device_falls_back demo_env None world0)).
  discriminate.
Defined.

Lemma get_media_files_empty_walk_witness :
  fst (get_media_files demo_env (Some "docs") (Some "media/a.mp3") world0)
  = Ok None.
Proof.
  apply (proj1 (get_media_files_empty_walk demo_env "docs"
                  (Some "media/a.mp3") world0 eq_refl eq_refl)).
Defined.

Lemma main_without_compute_device_witness :
  exists w',
    main demo_env (demo_args None) world0
    = (Raise (AttributeError "'NoneType' object has no attribute 'lower'"), w')
    /\ written w' = []
    /\ calls w'
       = [Call_ffmpeg_probe "media/b.mp4"; Call_ffmpeg_probe "media/notes.txt";
          Call_ffmpeg_probe "media/a.mp3";
          Call_ffmpeg_run (extraction_request "media/b.mp4" "audio-b.mp3")].
Proof.
  apply (main_without_compute_device demo_env (demo_args None) world0
           (snd (get_media_files demo_env (Some "media") None world0))
           ("media/b.mp4", false) [("media/a.mp3", true)]);
    reflexivity.
Defined.

(** ** Evaluations *)

Example lower_CUDA : lower "CuDa:0" = "cuda:0".
Proof. reflexivity. Qed.

Example strip_ex : strip "  hello world " = "hello world".
Proof. reflexivity. Qed.

Example rsplit_ex :
  rsplit1 " " "ab cd ef" = Ok ["ab cd"; "ef"]
  /\ rsplit1 " " "abcdef" = Ok ["abcdef"]
  /\ rsplit1 "" "abc" = Raise (ValueError "empty separator").
Proof. repeat split. Qed.

Example str_of_int_ex :
  str_of_int 12 = "12" /\ str_of_int 0 = "0" /\ int_of_str "12" = Some 12%Z.
Proof. repeat split. Qed.

Example rfind_ex :
  rfind "/" "a/b/c" = 3%Z /\ rfind "/" "abc" = (-1)%Z /\ rfind "aa" "aaa" = 1%Z.
Proof. repeat split. Qed.

Example os_path_ex :
  OsPath.basename "/x/y/movie.final.mp4" = "movie.final.mp4"
  /\ OsPath.splitext "movie.final.mp4" = ("movie.final", ".mp4")
  /\ OsPath.splitext ".bashrc" = (".bashrc", "")
  /\ OsPath.splitext "a/b.c/d" = ("a/b.c/d", "")
  /\ OsPath.dirname "/x/y/m.mp4" = "/x/y"
  /\ OsPath.dirname "m.mp4" = ""
  /\ OsPath.join "media" "a.mp3" = "media/a.mp3"
  /\ OsPath.join "" "a.mp3" = "a.mp3".
Proof. repeat split. Qed.

(** Property 8 of the spec on the reference rendering of times. *)
Example format_time_ex :
  spec_format_time 0 = "00:00:00,000"
  /\ spec_format_time 3725.5 = "01:02:05,500".
Proof. split; vm_compute; reflexivity. Qed.

Example extract_audio_ex :
  fst (extract_audio demo_env "/videos/talk.final.mkv" world0)
  = Ok "audio-talk.final.mp3".
Proof. vm_compute. reflexivity. Qed.

Example generate_subtitles_ex :
  generate_subtitles demo_env
    [seg 0 1.5 " Hello there. "; seg 3725.5 3727 "General Kenobi."]
  = Py.join (linesep demo_env)
      [""; "1"; "00:00:00,000 --> 00:00:01,500"; "Hello there."; ""; "";
       "2"; "01:02:05,500 --> 01:02:07,000"; "General Kenobi."; ""].
Proof. vm_compute. reflexivity. Qed.

(** With the device given, the failure of the first candidate aside, the
    loop on the audio file writes its subtitle beside the source. *)
Example process_audio_ex :
  written (snd (process_media_files demo_env (demo_args (Some "cpu"))
                                    [("media/a.mp3", true)] world0))
  = [("media/a.ai-en.srt",
      generate_subtitles demo_env
        [seg 0 1.5 " Hello there. "; seg 3725.5 3727 "General Kenobi."])].
Proof. vm_compute. reflexivity. Qed.


(** * Further properties of the program *)

(** ** Splitting at a character *)

Lemma rfind_none_contains (sub s : string) :
  rfind_nat sub s = None -> contains sub s = false.
Proof.
  unfold contains. induction s as [|x s IH]; cbn [rfind_nat find_nat].
  - destruct (startswith sub ""); [discriminate | reflexivity].
  - destruct (rfind_nat sub s); [discriminate|].
    destruct (startswith sub (String x s)); [discriminate|].
    intros _. specialize (IH eq_refl).
    destruct (find_nat sub s); [discriminate | reflexivity].
Qed.

Lemma take_drop (n : nat) (s : string) : take n s ++ drop n s = s.
Proof.
  revert s. induction n as [|n IH]; intros [|x s]; cbn; try reflexivity.
  now rewrite IH.
Qed.

Lemma length_take (n : nat) (s : string) :
  String.length (take n s) = Nat.min n (String.length s).
Proof.
  revert s. induction n as [|n IH]; intros [|x s]; cbn; try reflexivity.
  now rewrite IH.
Qed.

(** The last occurrence of a character: the text splits there, and the
    character does not occur after it. *)
Lemma rfind_char_some (c : ascii) (s : string) (i : nat) :
  rfind_nat (String c "") s = Some i ->
  s = take i s ++ String c (drop (S i) s)
  /\ contains (String c "") (drop (S i) s) = false
  /\ (i < String.length s)%nat.
Proof.
  revert i. induction s as [|x s IH]; intros i; cbn [rfind_nat startswith].
  - discriminate.
  - destruct (rfind_nat (String c "") s) as [j|] eqn:Hj.
    + intros [= <-]. destruct (IH j eq_refl) as (H1 & H2 & H3).
      change (drop (S (S j)) (String x s)) with (drop (S j) s).
      change (take (S j) (String x s)) with (String x (take j s)).
      cbn [append String.length]. repeat split.
      * f_equal. exact H1.
      * exact H2.
      * lia.
    + destruct (Ascii.eqb c x) eqn:Hcx; cbn [andb]; [|discriminate].
      intros [= <-]. apply Ascii.eqb_eq in Hcx. subst x.
      change (drop 1 (String c s)) with (drop 0 s).
      assert (Hd : drop 0 s = s) by now destruct s.
      rewrite Hd. cbn [take append String.length]. repeat split.
      * now apply rfind_none_contains.
      * lia.
Qed.

(** ** The body of the loop of [post_process] *)

(** What [rsplit(" ", 1)[0]] gives inside [clip_line]. *)
Lemma clip_line_long (line : string) (w : world) :
  (150 < String.length line)%nat ->
  clip_line line w
  = (Ok match rfind_nat " " (take 150 line) with
        | Some i => take i (take 150 line)
        | None => take 150 line
        end, w).
Proof.
  intros Hlen. unfold clip_line.
  apply Nat.ltb_lt in Hlen. rewrite Hlen.
  unfold try_except_on, try_except, bind, lift, rsplit1.
  destruct (rfind_nat " " (take 150 line)); reflexivity.
Qed.

(** X1: the loop body returns a line of at most 150 characters unchanged
    and without effect. *)
Theorem clip_line_short (line : string) (w : world) :
  (String.length line <= 150)%nat ->
  clip_line line w = (Ok line, w).
Proof.
  intros Hlen. unfold clip_line.
  replace (150 <? String.length line)%nat with false; [reflexivity|].
  symmetry. apply Nat.ltb_ge. exact Hlen.
Qed.

Lemma clip_line_short_witness :
  clip_line "Hello there." world0 = (Ok "Hello there.", world0).
Proof. apply clip_line_short. cbn. lia. Defined.

(** X2: on a line of more than 150 characters with no space among its
    first 150, the loop body returns exactly the first 150 characters; it
    does so through the ordinary path, so no warning is logged. *)
Theorem clip_line_without_space (line : string) (w : world) :
  (150 < String.length line)%nat ->
  contains " " (take 150 line) = false ->
  clip_line line w = (Ok (take 150 line), w)
  /\ String.length (take 150 line) = 150%nat.
Proof.
  intros Hlen Hsp. rewrite clip_line_long by exact Hlen.
  rewrite (contains_false_rfind _ _ Hsp). split; [reflexivity|].
  rewrite length_take. lia.
Qed.

(** X3: on a line of more than 150 characters with a space among its first
    150, the loop body returns the text before the last such space: fewer
    than 150 characters, followed in the line by a space and a run without
    spaces that ends the first 150 characters. *)
Theorem clip_line_at_last_space (line : string) (w : world) :
  (150 < String.length line)%nat ->
  contains " " (take 150 line) = true ->
  exists clipped tail,
    clip_line line w = (Ok clipped, w)
    /\ take 150 line = clipped ++ " " ++ tail
    /\ contains " " tail = false
    /\ (String.length clipped < 150)%nat.
Proof.
  intros Hlen Hsp. rewrite clip_line_long by exact Hlen.
  destruct (rfind_nat " " (take 150 line)) as [i|] eqn:Hi.
  - destruct (rfind_char_some _ _ _ Hi) as (H1 & H2 & H3).
    exists (take i (take 150 line)), (drop (S i) (take 150 line)).
    repeat split; try assumption.
    rewrite length_take in *. lia.
  - apply rfind_none_contains in Hi. congruence.
Qed.

(** X4: the loop body never raises and never logs: the handler of
    [ValueError] is unreachable, since the separator is not empty.  Its
    result is a prefix of the line, of at most 150 characters when the line
    is longer than that. *)
Theorem clip_line_prefix (line : string) (w : world) :
  exists clipped rest,
    clip_line line w = (Ok clipped, w)
    /\ line = clipped ++ rest
    /\ (String.length clipped <= Nat.max 150 (String.length line))%nat
    /\ ((150 < String.length line)%nat -> (String.length clipped <= 150)%nat).
Proof.
  destruct (Nat.ltb_spec 150 (String.length line)) as [Hlen|Hlen].
  - rewrite clip_line_long by exact Hlen.
    destruct (rfind_nat " " (take 150 line)) as [i|] eqn:Hi.
    + destruct (rfind_char_some _ _ _ Hi) as (H1 & H2 & H3).
      exists (take i (take 150 line)),
        (String " " (drop (S i) (take 150 line)) ++ drop 150 line).
      rewrite length_take in H3.
      assert (Hc : (String.length (take i (take 150 line)) <= 150)%nat)
        by (rewrite !length_take; lia).
      repeat split; try lia.
      rewrite <- append_assoc, <- H1. symmetry. apply take_drop.
    + exists (take 150 line), (drop 150 line).
      assert (Hc : (String.length (take 150 line) <= 150)%nat)
        by (rewrite length_take; lia).
      repeat split; try lia. symmetry. apply take_drop.
  - exists line, "". unfold clip_line.
    replace (150 <? String.length line)%nat with false
      by (symmetry; apply Nat.ltb_ge; exact Hlen).
    repeat split; try lia. now rewrite append_empty_r.
Qed.

Lemma clip_line_without_space_witness :
  clip_line (OsPath.mul_str "a" 151) world0
  = (Ok (take 150 (OsPath.mul_str "a" 151)), world0)
  /\ String.length (take 150 (OsPath.mul_str "a" 151)) = 150%nat.
Proof.
  apply clip_line_without_space; [apply Nat.ltb_lt|]; reflexivity.
Defined.

Lemma clip_line_at_last_space_witness :
  exists clipped tail,
    clip_line long_line world0 = (Ok clipped, world0)
    /\ take 150 long_line = clipped ++ " " ++ tail
    /\ contains " " tail = false
    /\ (String.length clipped < 150)%nat.
Proof.
  apply clip_line_at_last_space; [apply Nat.ltb_lt|]; reflexivity.
Defined.

(** ** More on [get_device] *)

Lemma lower_char_idempotent (c : ascii) :
  lower_char (lower_char c) = lower_char c.
Proof. destruct c as [[] [] [] [] [] [] [] []]; reflexivity. Qed.

Lemma lower_idempotent (s : string) : lower (lower s) = lower s.
Proof.
  induction s as [|c s IH]; cbn [lower]; [reflexivity|].
  now rewrite lower_char_idempotent, IH.
Qed.

(** X5: a preference that does not mention cuda, in any case, gives cpu
    with no probe of the accelerator and no log record: the world is left
    as it was. *)
Theorem get_device_other_preference (E : env) (s : string) (w : world) :
  wants_cuda (Some s) = false ->
  get_device E (Some s) w = (Ok "cpu", w).
Proof.
  unfold wants_cuda, get_device. intros H. now rewrite H.
Qed.

Lemma get_device_other_preference_witness :
  get_device (with_cuda (Ok true) demo_env) (Some "CPU") world0
  = (Ok "cpu", world0).
Proof. apply get_device_other_preference. reflexivity. Defined.

(** X6: when the preference is absent or mentions cuda and the probe
    answers true, [get_device] returns cuda after exactly one probe, with
    one DEBUG record. *)
Theorem get_device_accelerated (E : env) (device_selection : option string)
  (w : world) :
  wants_cuda device_selection = true ->
  cuda_is_available E = Ok true ->
  get_device E device_selection w
  = (Ok "cuda",
     {| logs := logs w ++ [{| logger := "get_device"; level := DEBUG;
                              message := "CUDA available." |}];
        stopwatch := stopwatch w; written := written w;
        calls := calls w ++ [Call_cuda_is_available] |}).
Proof.
  unfold wants_cuda, get_device. intros Hw Hp. rewrite Hw.
  unfold bind, try_except, call_out, log, ret. now rewrite Hp.
Qed.

Lemma get_device_accelerated_witness :
  fst (get_device (with_cuda (Ok true) demo_env) (Some "CUDA:0") world0)
  = Ok "cuda".
Proof.
  now rewrite (get_device_accelerated (with_cuda (Ok true) demo_env)
                 (Some "CUDA:0") world0 eq_refl eq_refl).
Defined.

(** X7: when the probe raises, [get_device] logs the error with the text
    of the exception, then the warning of the fallback, and returns cpu. *)
Theorem get_device_probe_error_logged (E : env)
  (device_selection : option string) (w : world) (e : exn) :
  wants_cuda device_selection = true ->
  cuda_is_available E = Raise e ->
  get_device E device_selection w
  = (Ok "cpu",
     {| logs := logs w
                  ++ [{| logger := "get_device"; level := ERROR;
                         message := "Warning: Error checking CUDA availability ("
                                      ++ exn_str e ++ ")" |};
                      {| logger := "get_device"; level := WARNING;
                         message := "Falling back to CPU." |}];
        stopwatch := stopwatch w; written := written w;
        calls := calls w ++ [Call_cuda_is_available] |}).
Proof.
  unfold wants_cuda, get_device. intros Hw Hp. rewrite Hw.
  unfold bind, try_except, call_out, log, ret. rewrite Hp. cbn.
  now rewrite <- app_assoc.
Qed.

Lemma get_device_probe_error_logged_witness :
  fst (get_device (with_cuda (Raise (RuntimeError "no driver")) demo_env)
                  None world0)
  = Ok "cpu".
Proof.
  now rewrite (get_device_probe_error_logged
                 (with_cuda (Raise (RuntimeError "no driver")) demo_env)
                 None world0 (RuntimeError "no driver") eq_refl eq_refl).
Defined.

(** X8: [get_device] lowers the preference itself, so the lowering that
    [main] applies before the call changes nothing: the call on the lowered
    preference runs as the call on the preference. *)
Theorem get_device_lowered_preference (E : env) (s : string) (w : world) :
  get_device E (Some (lower s)) w = get_device E (Some s) w.
Proof. unfold get_device. now rewrite lower_idempotent. Qed.

(** ** [is_media_file] *)

(** X9: [is_media_file] reads the codec type of the first stream only:
    audio gives (valid, audio), video gives (valid, not audio), anything
    else gives (not valid, not audio); the later streams play no part and
    nothing is logged. *)
Theorem is_media_file_first_stream (E : env) (file_path : string) (w : world)
  (probe : probe_data) (s0 : stream) (rest : list stream) :
  ffmpeg_probe E file_path = Ok probe ->
  streams probe = s0 :: rest ->
  is_media_file E file_path w
  = (Ok (flags_of_codec (codec_type s0)),
     {| logs := logs w; stopwatch := stopwatch w; written := written w;
        calls := calls w ++ [Call_ffmpeg_probe file_path] |}).
Proof.
  intros Hp Hs. unfold is_media_file, flags_of_codec.
  unfold try_except, bind, call_out, ret. rewrite Hp, Hs.
  destruct (String.eqb (codec_type s0) "audio") eqn:Ha;
    destruct (String.eqb (codec_type s0) "video") eqn:Hv; reflexivity.
Qed.

Lemma is_media_file_first_stream_witness :
  fst (is_media_file demo_env "media/b.mp4" world0) = Ok (true, false).
Proof.
  now rewrite (is_media_file_first_stream demo_env "media/b.mp4" world0
                 {| streams := [{| codec_type := "video" |};
                                {| codec_type := "audio" |}] |}
                 {| codec_type := "video" |} [{| codec_type := "audio" |}]
                 eq_refl eq_refl).
Defined.

(** X10: a failure of the probe does not leave [is_media_file]: the file
    counts as not valid, and the error is logged with the text of the
    exception. *)
Theorem is_media_file_probe_error (E : env) (file_path : string) (w : world)
  (e : exn) :
  ffmpeg_probe E file_path = Raise e ->
  is_media_file E file_path w
  = (Ok (false, false),
     {| logs := logs w
                  ++ [{| logger := "is_media_file"; level := ERROR;
                         message := "An error occurred while probing the file: "
                                      ++ exn_str e |}];
        stopwatch := stopwatch w; written := written w;
        calls := calls w ++ [Call_ffmpeg_probe file_path] |}).
Proof.
  intros Hp. unfold is_media_file.
  unfold try_except, bind, call_out, log, ret. now rewrite Hp.
Qed.

Lemma is_media_file_probe_error_witness :
  fst (is_media_file demo_env "media/notes.txt" world0) = Ok (false, false).
Proof.
  now rewrite (is_media_file_probe_error demo_env "media/notes.txt" world0
                 (RuntimeError "ffprobe error") eq_refl).
Defined.

(** X11: [is_media_file] never raises, makes exactly one probe, and never
    reports an audio file that is not valid media. *)
Theorem is_media_file_flags (E : env) (file_path : string) (w : world) :
  exists valid audio w',
    is_media_file E file_path w = (Ok (valid, audio), w')
    /\ (audio = true -> valid = true)
    /\ calls w' = (calls w ++ [Call_ffmpeg_probe file_path])%list
    /\ written w' = written w.
Proof.
  unfold is_media_file, try_except, bind, call_out, log, ret.
  destruct (ffmpeg_probe E file_path) as [probe|e].
  - destruct (streams probe) as [|s0 l].
    + exists false, false. eexists. cbn. repeat split. discriminate.
    + destruct (String.eqb (codec_type s0) "audio") eqn:Ha;
        destruct (String.eqb (codec_type s0) "video") eqn:Hv;
        do 2 eexists; eexists; cbn; repeat split; auto.
  - exists false, false. eexists. cbn. repeat split. discriminate.
Qed.

(** ** More on [get_media_files] *)

Lemma is_media_file_full (E : env) (file_path : string) (w : world) :
  exists w', is_media_file E file_path w = (Ok (media_kind E file_path), w')
             /\ written w' = written w
             /\ calls w' = (calls w ++ [Call_ffmpeg_probe file_path])%list.
Proof.
  unfold media_kind, is_media_file, try_except, bind, call_out, log, ret.
  cbn [fst].
  destruct (ffmpeg_probe E file_path) as [probe|e]; [|cbn; eauto].
  destruct (streams probe) as [|s0 l]; [cbn; eauto|].
  destruct (String.eqb (codec_type s0) "audio"),
    (String.eqb (codec_type s0) "video"); cbn; eauto.
Qed.

Lemma scan_files_full (E : env) (root : string) (files : list string)
  (acc : list (string * bool)) (w : world) :
  exists w', scan_files E root files acc w
             = (Ok (acc ++ file_candidates E root files)%list, w')
             /\ written w' = written w
             /\ calls w' = (calls w ++ map Call_ffmpeg_probe
                                         (map (OsPath.join root) files))%list.
Proof.
  unfold scan_files. revert acc w.
  induction files as [|f files IH]; intros acc w.
  - exists w. cbn. now rewrite !app_nil_r.
  - cbn [for_each file_candidates flat_map map].
    destruct (is_media_file_full E (OsPath.join root f) w)
      as (w1 & H1 & Hw1 & Hc1).
    destruct (media_kind E (OsPath.join root f)) as [[|] is_audio] eqn:Hk.
    + destruct (IH (acc ++ [(OsPath.join root f, is_audio)])%list w1)
        as (w2 & H2 & Hw2 & Hc2).
      exists w2. repeat split; [|congruence|].
      * erewrite bind_ok.
        2: { erewrite bind_ok by exact H1. reflexivity. }
        rewrite H2. cbn [fst snd]. rewrite <- app_assoc. reflexivity.
      * rewrite Hc2, Hc1. rewrite <- app_assoc. reflexivity.
    + destruct (IH acc w1) as (w2 & H2 & Hw2 & Hc2).
      exists w2. repeat split; [|congruence|].
      * erewrite bind_ok.
        2: { erewrite bind_ok by exact H1. reflexivity. }
        rewrite H2. reflexivity.
      * rewrite Hc2, Hc1. rewrite <- app_assoc. reflexivity.
Qed.

Lemma walk_full (E : env) (entries : list (string * list string * list string))
  (acc : list (string * bool)) (w : world) :
  exists w',
    for_each entries
      (fun entry media_files =>
         let '(root, _, files) := entry in scan_files E root files media_files)
      acc w
    = (Ok (acc ++ flat_map
                    (fun entry : string * list string * list string =>
                       let '(root, _, files) := entry in
                       file_candidates E root files)
                    entries)%list, w')
    /\ written w' = written w
    /\ calls w'
       = (calls w
            ++ map Call_ffmpeg_probe
                 (flat_map
                    (fun entry : string * list string * list string =>
                       let '(root, _, files) := entry in
                       map (OsPath.join root) files)
                    entries))%list.
Proof.
  revert acc w. induction entries as [|[[root dirs] files] entries IH];
    intros acc w.
  - exists w. cbn. now rewrite !app_nil_r.
  - cbn [for_each flat_map].
    destruct (scan_files_full E root files acc w) as (w1 & H1 & Hw1 & Hc1).
    destruct (IH (acc ++ file_candidates E root files)%list w1)
      as (w2 & H2 & Hw2 & Hc2).
    exists w2. repeat split; [|congruence|].
    + erewrite bind_ok by exact H1. rewrite H2. now rewrite <- app_assoc.
    + rewrite Hc2, Hc1, map_app. now rewrite <- app_assoc.
Qed.

(** The whole run of [get_media_files]: it never raises, writes no file,
    and its only collaborator calls are the probes. *)
Lemma get_media_files_full (E : env) (directory file : option string)
  (w : world) :
  exists w',
    get_media_files E directory file w = (Ok (discovered E directory file), w')
    /\ written w' = written w
    /\ calls w'
       = (calls w ++ map Call_ffmpeg_probe (probed_paths E directory file))%list.
Proof.
  unfold get_media_files, discovered, probed_paths, directory_candidates.
  assert (Hfile : forall (l : list (string * bool)) (w1 : world),
    exists w',
      match file with
      | Some f =>
          if truthy f
          then
            r <- is_media_file E f;;
            (let '(is_valid, is_audio) := r in
             if (is_valid : bool)
             then ret (Some (l ++ [(f, is_audio)])%list)
             else
               log "get_media_files" ERROR
                   ("Error: File '" ++ f ++ "' is not a valid media file.");;
               ret None)
          else ret (Some l)
      | None => ret (Some l)
      end w1
      = (Ok match file with
            | Some f =>
                if truthy f
                then if fst (media_kind E f)
                     then Some (l ++ [(f, snd (media_kind E f))])%list
                     else None
                else Some l
            | None => Some l
            end, w')
      /\ written w' = written w1
      /\ calls w'
         = (calls w1 ++ map Call_ffmpeg_probe
                          match file with
                          | Some f => if truthy f then [f] else []
                          | None => []
                          end)%list).
  { intros l w1. destruct file as [f|].
    - destruct (truthy f).
      + destruct (is_media_file_full E f w1) as (w2 & H2 & Hw2 & Hc2).
        destruct (media_kind E f) as [[|] is_audio].
        * exists w2. erewrite bind_ok by exact H2. auto.
        * eexists. erewrite bind_ok by exact H2. cbn.
          unfold bind, log, ret. cbn. auto.
      + exists w1. cbn. now rewrite app_nil_r.
    - exists w1. cbn. now rewrite app_nil_r. }
  destruct directory as [d|]; cbn [truthy_opt].
  - destruct (truthy d) eqn:Hd; cbn [andb].
    + destruct (walk_full E (os_walk E d) [] w) as (w1 & H1 & Hw1 & Hc1).
      cbn [app] in H1. fold (walk_candidates E d) in H1.
      fold (walked_files E d) in Hc1.
      destruct (walk_candidates E d) as [|c cs] eqn:Hwalk.
      * eexists. erewrite bind_ok.
        2: { erewrite bind_ok by exact H1. reflexivity. }
        unfold bind, log, ret. cbn [fst snd].
        split; [reflexivity|]. cbn [written calls]. auto.
      * destruct (Hfile (c :: cs) w1) as (w2 & H2 & Hw2 & Hc2).
        exists w2. erewrite bind_ok.
        2: { erewrite bind_ok by exact H1. reflexivity. }
        cbv beta iota. rewrite H2. repeat split; [congruence|].
        rewrite Hc2, Hc1, map_app. now rewrite <- app_assoc.
    + destruct (Hfile [] w) as (w2 & H2 & Hw2 & Hc2).
      exists w2. erewrite bind_ok by reflexivity. cbv beta iota.
      rewrite H2. auto.
  - destruct (Hfile [] w) as (w2 & H2 & Hw2 & Hc2).
    exists w2. erewrite bind_ok by reflexivity. cbv beta iota.
      rewrite H2. auto.
Qed.

Lemma walk_candidates_valid (E : env) (d path : string) (audio : bool) :
  In (path, audio) (walk_candidates E d) -> media_kind E path = (true, audio).
Proof.
  unfold walk_candidates. intros H.
  apply in_flat_map in H. destruct H as ([[root dirs] files] & _ & H).
  unfold file_candidates in H. apply in_flat_map in H.
  destruct H as (f & _ & H).
  destruct (media_kind E (OsPath.join root f)) as [[|] a] eqn:Hk;
    cbn [fst snd] in H; [|contradiction].
  destruct H as [[= <- <-]|[]]. exact Hk.
Qed.

(** X12: for a directory alone, the result of [get_media_files] is the
    list of the valid media of the walk, in walk order, each with its audio
    flag: nothing is sorted, dropped or added. *)
Theorem get_media_files_walk_order (E : env) (d : string) (w : world) :
  truthy d = true ->
  walk_candidates E d <> [] ->
  fst (get_media_files E (Some d) None w) = Ok (Some (walk_candidates E d)).
Proof.
  intros Hd Hne.
  destruct (get_media_files_full E (Some d) None w) as (w' & H & _).
  rewrite H. cbn [fst]. unfold discovered, directory_candidates.
  cbn [truthy_opt]. rewrite Hd.
  destruct (walk_candidates E d); [contradiction|reflexivity].
Qed.

Lemma get_media_files_walk_order_witness :
  fst (get_media_files demo_env (Some "media") None world0)
  = Ok (Some [("media/b.mp4", false); ("media/a.mp3", true)]).
Proof.
  apply (get_media_files_walk_order demo_env "media" world0);
    [reflexivity | discriminate].
Defined.

(** X13: for a directory alone, [get_media_files] probes every regular
    file of the walk exactly once, in walk order, makes no other call and
    writes no file, whether or not any of them is valid media. *)
Theorem get_media_files_probes_walk (E : env) (d : string) (w : world) :
  truthy d = true ->
  calls (snd (get_media_files E (Some d) None w))
  = (calls w ++ map Call_ffmpeg_probe (walked_files E d))%list
  /\ written (snd (get_media_files E (Some d) None w)) = written w.
Proof.
  intros Hd.
  destruct (get_media_files_full E (Some d) None w) as (w' & H & Hw & Hc).
  rewrite H. cbn [snd]. split; [|exact Hw].
  rewrite Hc. unfold probed_paths. cbn [truthy_opt]. rewrite Hd.
  destruct (_ && _); [reflexivity | now rewrite app_nil_r].
Qed.

Lemma get_media_files_probes_walk_witness :
  calls (snd (get_media_files demo_env (Some "docs") None world0))
  = [Call_ffmpeg_probe "docs/readme.txt"; Call_ffmpeg_probe "docs/old/draft.txt"]
  /\ written (snd (get_media_files demo_env (Some "docs") None world0)) = [].
Proof.
  apply (get_media_files_probes_walk demo_env "docs" world0). reflexivity.
Defined.

(** X14: a valid single file is appended after the candidates of the
    directory, with its audio flag, also when the walk has already found
    it; without a directory it is the only candidate. *)
Theorem get_media_files_appends_file (E : env) (directory : option string)
  (f : string) (w : world) :
  (truthy_opt directory = true -> directory_candidates E directory <> []) ->
  truthy f = true ->
  fst (media_kind E f) = true ->
  fst (get_media_files E directory (Some f) w)
  = Ok (Some (directory_candidates E directory
                ++ [(f, snd (media_kind E f))])%list).
Proof.
  intros Hdir Hf Hk.
  destruct (get_media_files_full E directory (Some f) w) as (w' & H & _).
  rewrite H. cbn [fst]. unfold discovered. rewrite Hf, Hk.
  destruct (truthy_opt directory); [|reflexivity].
  destruct (directory_candidates E directory); [|reflexivity].
  now contradiction Hdir.
Qed.

Lemma get_media_files_appends_file_witness :
  fst (get_media_files demo_env (Some "media") (Some "media/a.mp3") world0)
  = Ok (Some [("media/b.mp4", false); ("media/a.mp3", true);
              ("media/a.mp3", true)]).
Proof.
  apply (get_media_files_appends_file demo_env (Some "media") "media/a.mp3"
           world0); [discriminate | reflexivity | reflexivity].
Defined.

(** X15: every candidate that [get_media_files] returns is valid media,
    and its flag is the audio flag that [is_media_file] gives its path. *)
Theorem get_media_files_sound (E : env) (directory file : option string)
  (w : world) (found : list (string * bool)) (path : string) (audio : bool) :
  fst (get_media_files E directory file w) = Ok (Some found) ->
  In (path, audio) found ->
  media_kind E path = (true, audio).
Proof.
  destruct (get_media_files_full E directory file w) as (w' & H & _).
  rewrite H. cbn [fst]. unfold discovered. intros Hres Hin.
  assert (Hdir : In (path, audio) (directory_candidates E directory) ->
                 media_kind E path = (true, audio)).
  { unfold directory_candidates. destruct directory as [d|]; [|contradiction].
    destruct (truthy d); [|contradiction]. apply walk_candidates_valid. }
  destruct (_ && _); [discriminate|].
  destruct file as [f|].
  - destruct (truthy f).
    + destruct (media_kind E f) as [[|] a] eqn:Hk; cbn [fst snd] in Hres;
        [|discriminate].
      injection Hres as <-. apply in_app_or in Hin.
      destruct Hin as [Hin|[[= <- <-]|[]]]; [now apply Hdir | exact Hk].
    + injection Hres as <-. now apply Hdir.
  - injection Hres as <-. now apply Hdir.
Qed.

Lemma get_media_files_sound_witness :
  media_kind demo_env "media/a.mp3" = (true, true).
Proof.
  apply (get_media_files_sound demo_env (Some "media") None world0
           [("media/b.mp4", false); ("media/a.mp3", true)]);
    [reflexivity | right; left; reflexivity].
Defined.

(** X16: [get_media_files] returns the empty list only when neither a
    directory nor a file was asked for (each absent or the empty string);
    with either one, an empty discovery is [None]. *)
Theorem get_media_files_empty_list (E : env) (directory file : option string)
  (w : world) :
  fst (get_media_files E directory file w) = Ok (Some []) ->
  truthy_opt directory = false /\ truthy_opt file = false.
Proof.
  destruct (get_media_files_full E directory file w) as (w' & H & _).
  rewrite H. cbn [fst]. unfold discovered.
  destruct (truthy_opt directory) eqn:Hd; cbn [andb].
  - destruct (directory_candidates E directory) as [|c cs]; [discriminate|].
    destruct file as [f|]; [destruct (truthy f)|];
      try destruct (fst (media_kind E f)); discriminate.
  - destruct file as [f|]; cbn [truthy_opt]; [|auto].
    destruct (truthy f); [|auto].
    destruct (fst (media_kind E f)); [|discriminate].
    intros [= Habs]. now apply app_eq_nil in Habs as [_ [=]].
Qed.

Lemma get_media_files_empty_list_witness :
  truthy_opt None = false /\ truthy_opt (Some "") = false.
Proof.
  apply (get_media_files_empty_list demo_env None (Some "") world0).
  reflexivity.
Defined.

(** X17: [get_media_files] never raises, whatever the probes do, writes no
    file, and all the collaborator calls it makes are probes. *)
Theorem get_media_files_only_probes (E : env) (directory file : option string)
  (w : world) :
  exists result w' paths,
    get_media_files E directory file w = (Ok result, w')
    /\ written w' = written w
    /\ calls w' = (calls w ++ map Call_ffmpeg_probe paths)%list.
Proof.
  destruct (get_media_files_full E directory file w) as (w' & H & Hw & Hc).
  now exists (discovered E directory file), w',
    (probed_paths E directory file).
Qed.

(** ** More on [extract_audio] *)

(** X18: whatever the transcoder does, [extract_audio] makes exactly one
    transcoding call, from the source to the artifact, mono at 16 kHz with
    libmp3lame and overwriting; it writes no subtitle file, and the
    stopwatch interval that it opened is closed, also after a failure. *)
Theorem extract_audio_effects (E : env) (video_path : string) (w : world) :
  calls (snd (extract_audio E video_path w))
  = (calls w
       ++ [Call_ffmpeg_run
             {| sourcePath := video_path;
                targetPath := artifact_path video_path;
                acodec := "libmp3lame"; ac := 1; ar := 16000; q_a := 0;
                threads := 0; thread_queue_size := 1024;
                fflags := "+fastseek"; overwrite_output := true |}])%list
  /\ stopwatch (snd (extract_audio E video_path w))
     = Timer.stop "Audio Extraction"
         (Timer.start "Audio Extraction" (stopwatch w))
  /\ written (snd (extract_audio E video_path w)) = written w.
Proof.
  unfold extract_audio, artifact_path.
  unfold bind, try_except, call_out, stopwatch_do, log, ret. cbn.
  destruct (ffmpeg_run E _) as [[]|e]; cbn; auto.
Qed.

(** X19: for a source [dir/name.ext], where [name] is not empty and holds
    no slash and no dot and [ext] holds neither, the artifact is
    [audio-name.mp3]: the directory and the extension of the source leave
    no trace in it. *)
Theorem extract_audio_plain_path (E : env) (dir name ext : string) (w : world) :
  truthy name = true ->
  contains "/" (name ++ "." ++ ext) = false ->
  contains "." name = false ->
  contains "." ext = false ->
  fst (extract_audio E (dir ++ "/" ++ name ++ "." ++ ext) w)
  = Ok ("audio-" ++ name ++ ".mp3").
Proof.
  intros Hne Hslash Hdot Hext.
  destruct (extract_audio_run E (dir ++ "/" ++ name ++ "." ++ ext) w)
    as (w' & H & _).
  rewrite H. cbn [fst]. unfold artifact_path.
  now rewrite artifact_base_name.
Qed.

Lemma extract_audio_plain_path_witness :
  fst (extract_audio demo_env ("/home/user/videos" ++ "/" ++ "talk" ++ "." ++ "mkv")
                     world0)
  = Ok ("audio-" ++ "talk" ++ ".mp3").
Proof. apply extract_audio_plain_path; reflexivity. Defined.

Lemma contains_char_cons (c x : ascii) (s : string) :
  contains (String c "") (String x s)
  = Ascii.eqb c x || contains (String c "") s.
Proof.
  unfold contains. cbn [find_nat startswith].
  destruct (Ascii.eqb c x); cbn [andb orb]; [reflexivity|].
  now destruct (find_nat (String c "") s).
Qed.

Lemma contains_char_append (c : ascii) (a b : string) :
  contains (String c "") (a ++ b)
  = contains (String c "") a || contains (String c "") b.
Proof.
  induction a as [|x a IH]; cbn [append].
  - reflexivity.
  - rewrite !contains_char_cons, IH. now rewrite orb_assoc.
Qed.

Lemma contains_char_take (c : ascii) (n : nat) (s : string) :
  contains (String c "") s = false ->
  contains (String c "") (take n s) = false.
Proof.
  intros H. rewrite <- (take_drop n s), contains_char_append in H.
  now apply orb_false_elim in H.
Qed.

Lemma basename_no_slash (p : string) :
  contains "/" (OsPath.basename p) = false.
Proof.
  unfold OsPath.basename, rfind.
  destruct (rfind_nat "/" p) as [i|] eqn:Hi.
  - destruct (rfind_char_some _ _ _ Hi) as (_ & H & _).
    replace (Z.to_nat (Z.of_nat i + 1)) with (S i) by lia. exact H.
  - change (Z.to_nat (-1 + 1)) with 0%nat.
    replace (drop 0 p) with p by now destruct p.
    now apply rfind_none_contains.
Qed.

Lemma splitext_scan_root (p : string) (dotIndex filenameIndex n : nat) :
  fst (OsPath.splitext_scan p dotIndex filenameIndex n) = p
  \/ fst (OsPath.splitext_scan p dotIndex filenameIndex n) = take dotIndex p.
Proof.
  revert filenameIndex. induction n as [|n IH]; intros filenameIndex;
    cbn [OsPath.splitext_scan].
  - now left.
  - destruct (negb _); [now right | apply IH].
Qed.

(** X20: the artifact that [extract_audio] returns never holds a slash: it
    is a file of the working directory, whatever the directory of the
    source. *)
Theorem extract_audio_working_directory (E : env) (video_path : string)
  (w : world) :
  exists path,
    fst (extract_audio E video_path w) = Ok path
    /\ contains "/" path = false.
Proof.
  destruct (extract_audio_run E video_path w) as (w' & H & _).
  exists (artifact_path video_path). rewrite H. split; [reflexivity|].
  unfold artifact_path.
  change "audio-" with ("audio-" ++ "").
  rewrite !contains_char_append.
  assert (Hb : contains "/" (fst (OsPath.splitext (OsPath.basename video_path)))
               = false).
  { unfold OsPath.splitext.
    destruct (_ <? _)%Z; [|apply basename_no_slash].
    destruct (splitext_scan_root (OsPath.basename video_path)
                (Z.to_nat (rfind "." (OsPath.basename video_path)))
                (Z.to_nat (rfind "/" (OsPath.basename video_path) + 1))
                (Z.to_nat (rfind "." (OsPath.basename video_path))
                 - Z.to_nat (rfind "/" (OsPath.basename video_path) + 1)))
      as [-> | ->].
    - apply basename_no_slash.
    - apply contains_char_take, basename_no_slash. }
  rewrite Hb. reflexivity.
Qed.

(** ** [transcribe] *)

Lemma log_segments (E : env) (segments : list segment) (w : world) :
  for_each segments
    (fun segment (_ : unit) =>
       log "transcribe" DEBUG
           ("[" ++ format_2f E (start segment) ++ "s -> "
                ++ format_2f E (end_ segment) ++ "s] " ++ text segment))
    tt w
  = (Ok tt,
     {| logs := logs w ++ map (segment_record E) segments;
        stopwatch := stopwatch w; written := written w; calls := calls w |}).
Proof.
  revert w. induction segments as [|s segments IH]; intros w.
  - cbn. rewrite app_nil_r. now destruct w.
  - cbn [for_each map]. unfold bind at 1. unfold log at 1. rewrite IH.
    cbn [logs stopwatch written calls]. now rewrite <- app_assoc.
Qed.

(** X21: when recognition and alignment succeed, [transcribe] returns the
    language that recognition detected with the segments that alignment
    produced; alignment is called on the recognised segments with that
    language; the log gets the language then one record per aligned
    segment, and the stopwatch interval is closed. *)
Theorem transcribe_success (E : env) (audio_path device model_size : string)
  (w : world) (r : recognition) (aligned : list segment) :
  whisperx_transcribe E model_size device audio_path = Ok r ->
  whisperx_align E (rec_segments r) (rec_language r) audio_path device
  = Ok aligned ->
  transcribe E audio_path device model_size w
  = (Ok (rec_language r, aligned),
     {| logs := logs w
                  ++ {| logger := "transcribe"; level := INFO;
                        message := "Language: " ++ rec_language r |}
                  :: map (segment_record E) aligned;
        stopwatch := Timer.stop "Transcription"
                       (Timer.start "Transcription" (stopwatch w));
        written := written w;
        calls := calls w
                   ++ [Call_whisperx_transcribe model_size device audio_path;
                       Call_whisperx_align (rec_language r) audio_path device]
     |}).
Proof.
  intros Hr Ha. unfold transcribe.
  unfold bind at 1. unfold stopwatch_do at 1.
  unfold bind at 1. unfold call_out at 1. rewrite Hr.
  unfold bind at 1. unfold call_out at 1. rewrite Ha.
  unfold bind at 1. unfold log at 1.
  unfold bind at 1. rewrite log_segments.
  unfold bind, stopwatch_do, ret. cbn [logs stopwatch written calls].
  now rewrite <- !app_assoc.
Qed.

Lemma transcribe_success_witness :
  fst (transcribe demo_env "media/a.mp3" "cpu" "base.en" world0)
  = Ok ("en", [seg 0 1.5 " Hello there. "; seg 3725.5 3727 "General Kenobi."]).
Proof.
  now rewrite (transcribe_success demo_env "media/a.mp3" "cpu" "base.en" world0
                 {| rec_language := "en";
                    rec_segments := [seg 0 1.5 " Hello there. ";
                                     seg 3725.5 3727 "General Kenobi."] |}
                 [seg 0 1.5 " Hello there. "; seg 3725.5 3727 "General Kenobi."]
                 eq_refl eq_refl).
Defined.

(** X22: when recognition raises, [transcribe] raises the same exception
    at once: alignment is not called, nothing is logged, and the stopwatch
    interval that it opened stays open. *)
Theorem transcribe_recognition_failure (E : env)
  (audio_path device model_size : string) (w : world) (e : exn) :
  whisperx_transcribe E model_size device audio_path = Raise e ->
  transcribe E audio_path device model_size w
  = (Raise e,
     {| logs := logs w;
        stopwatch := Timer.start "Transcription" (stopwatch w);
        written := written w;
        calls := calls w
                   ++ [Call_whisperx_transcribe model_size device audio_path]
     |}).
Proof.
  intros Hr. unfold transcribe, bind, stopwatch_do, call_out.
  now rewrite Hr.
Qed.

Lemma transcribe_recognition_failure_witness :
  fst (transcribe demo_env "audio-b.mp3" "cpu" "base.en" world0)
  = Raise (RuntimeError "model error").
Proof.
  now rewrite (transcribe_recognition_failure demo_env "audio-b.mp3" "cpu"
                 "base.en" world0 (RuntimeError "model error") eq_refl).
Defined.

(** X23: when recognition succeeds and alignment raises, [transcribe]
    raises the exception of the alignment: the detected language is neither
    returned nor logged, and the stopwatch interval stays open. *)
Theorem transcribe_alignment_failure (E : env)
  (audio_path device model_size : string) (w : world) (r : recognition)
  (e : exn) :
  whisperx_transcribe E model_size device audio_path = Ok r ->
  whisperx_align E (rec_segments r) (rec_language r) audio_path device
  = Raise e ->
  transcribe E audio_path device model_size w
  = (Raise e,
     {| logs := logs w;
        stopwatch := Timer.start "Transcription" (stopwatch w);
        written := written w;
        calls := calls w
                   ++ [Call_whisperx_transcribe model_size device audio_path;
                       Call_whisperx_align (rec_language r) audio_path device]
     |}).
Proof.
  intros Hr Ha. unfold transcribe, bind, stopwatch_do, call_out.
  rewrite Hr, Ha. cbn [logs stopwatch written calls].
  now rewrite <- app_assoc.
Qed.

Lemma transcribe_alignment_failure_witness :
  fst (transcribe
         (with_align (fun _ _ _ _ => Raise (RuntimeError "no align model"))
                     demo_env)
         "media/a.mp3" "cpu" "base.en" world0)
  = Raise (RuntimeError "no align model").
Proof.
  now rewrite (transcribe_alignment_failure
                 (with_align (fun _ _ _ _ => Raise (RuntimeError "no align model"))
                             demo_env)
                 "media/a.mp3" "cpu" "base.en" world0
                 {| rec_language := "en";
                    rec_segments := [seg 0 1.5 " Hello there. ";
                                     seg 3725.5 3727 "General Kenobi."] |}
                 (RuntimeError "no align model") eq_refl eq_refl).
Defined.

(** ** A whole turn of the loop of [main] *)

Lemma transcribe_ok_run (E : env) (audio_path device model_size : string)
  (w : world) (r : recognition) (aligned : list segment) :
  whisperx_transcribe E model_size device audio_path = Ok r ->
  whisperx_align E (rec_segments r) (rec_language r) audio_path device
  = Ok aligned ->
  exists w',
    transcribe E audio_path device model_size w
    = (Ok (rec_language r, aligned), w')
    /\ written w' = written w.
Proof.
  intros Hr Ha. unfold transcribe.
  unfold bind at 1. unfold stopwatch_do at 1.
  unfold bind at 1. unfold call_out at 1. rewrite Hr.
  unfold bind at 1. unfold call_out at 1. rewrite Ha.
  unfold bind at 1. unfold log at 1.
  unfold bind at 1. rewrite log_segments.
  unfold bind, stopwatch_do, ret. eexists. split; reflexivity.
Qed.

(** Up to the write: when recognition and alignment succeed, a turn of
    the loop comes down to the write step, in a world where no file has
    been written yet. *)
Lemma process_media_file_transcribed (E : env) (a : args) (preference : string)
  (media_file : string * bool) (w : world) (r : recognition)
  (aligned : list segment) :
  compute_device a = Some preference ->
  whisperx_transcribe E (lower (model_size a))
                      (chosen_device E (Some (lower preference)))
                      (audio_of media_file) = Ok r ->
  whisperx_align E (rec_segments r) (rec_language r) (audio_of media_file)
                 (chosen_device E (Some (lower preference))) = Ok aligned ->
  exists w1,
    written w1 = written w
    /\ process_media_file E a media_file w
       = write_step E (fst media_file) (rec_language r)
                    (generate_subtitles E aligned) w1.
Proof.
  intros Hpref Hr Ha. unfold process_media_file, write_step, subtitle_path,
    stem_of. rewrite Hpref. cbv zeta. unfold rsplit1.
  destruct (rfind_nat "." (fst media_file)) as [i|];
    rewrite bind_lift_ok; cbn [index0]; rewrite bind_lift_ok;
    (erewrite bind_ok by reflexivity);
    match goal with
    | |- exists w1, _ /\ bind _ _ ?w0 = _ =>
        destruct (before_device_run E media_file w0) as (w1 & H1 & Hw1 & _)
    end;
    (erewrite bind_ok by exact H1); cbn [lower_opt]; rewrite bind_lift_ok;
    destruct (get_device_run E (Some (lower preference)) w1) as (w2 & H2 & Hw2);
    (erewrite bind_ok by exact H2);
    destruct (transcribe_ok_run E _ _ _ w2 r aligned Hr Ha) as (w3 & H3 & Hw3);
    (erewrite bind_ok by exact H3); cbv beta iota;
    (erewrite bind_ok by (unfold post_process; apply post_process_loop));
    exists w3; (split; [cbn [written] in *; congruence | reflexivity]).
Qed.

Lemma write_step_ok (E : env) (path language subtitles : string) (w : world) :
  open_w E (subtitle_path path language) = Ok tt ->
  exists w',
    write_step E path language subtitles w = (Ok tt, w')
    /\ written w' = (written w ++ [(subtitle_path path language, subtitles)])%list.
Proof.
  intros Ho. unfold write_step, try_except, bind, call_out, write_file, log,
    stopwatch_do. rewrite Ho. cbn. eauto.
Qed.

(** X24: when the device preference is given and recognition, alignment
    and the opening of the subtitle file all succeed, a turn of the loop
    returns normally and writes exactly one file: the subtitle path of the
    source for the detected language, holding the rendering of the aligned
    segments as [generate_subtitles] gives it. *)
Theorem process_media_file_writes_subtitle (E : env) (a : args)
  (preference : string) (media_file : string * bool) (w : world)
  (r : recognition) (aligned : list segment) :
  compute_device a = Some preference ->
  whisperx_transcribe E (lower (model_size a))
                      (chosen_device E (Some (lower preference)))
                      (audio_of media_file) = Ok r ->
  whisperx_align E (rec_segments r) (rec_language r) (audio_of media_file)
                 (chosen_device E (Some (lower preference))) = Ok aligned ->
  open_w E (subtitle_path (fst media_file) (rec_language r)) = Ok tt ->
  fst (process_media_file E a media_file w) = Ok tt
  /\ written (snd (process_media_file E a media_file w))
     = (written w ++ [(subtitle_path (fst media_file) (rec_language r),
                       generate_subtitles E aligned)])%list.
Proof.
  intros Hpref Hr Ha Ho.
  destruct (process_media_file_transcribed E a preference media_file w r
              aligned Hpref Hr Ha) as (w1 & Hw1 & ->).
  destruct (write_step_ok E (fst media_file) (rec_language r)
              (generate_subtitles E aligned) w1 Ho) as (w2 & -> & Hw2).
  cbn [fst snd]. split; [reflexivity | congruence].
Qed.

Lemma process_media_file_writes_subtitle_witness :
  fst (process_media_file demo_env (demo_args (Some "cpu"))
                          ("media/a.mp3", true) world0) = Ok tt
  /\ written (snd (process_media_file demo_env (demo_args (Some "cpu"))
                                      ("media/a.mp3", true) world0))
     = [("media/a.ai-en.srt",
         generate_subtitles demo_env
           [seg 0 1.5 " Hello there. "; seg 3725.5 3727 "General Kenobi."])].
Proof.
  apply (process_media_file_writes_subtitle demo_env (demo_args (Some "cpu"))
           "cpu" ("media/a.mp3", true) world0
           {| rec_language := "en";
              rec_segments := [seg 0 1.5 " Hello there. ";
                               seg 3725.5 3727 "General Kenobi."] |}
           [seg 0 1.5 " Hello there. "; seg 3725.5 3727 "General Kenobi."]);
    reflexivity.
Defined.

(** X25: when the opening of the subtitle file raises, the turn still
    returns normally: no file is written, the last log record is the error
    of [main] with the text of the exception, and the loop goes on with
    the remaining candidates. *)
Theorem process_media_file_write_failure (E : env) (a : args)
  (preference : string) (media_file : string * bool)
  (rest : list (string * bool)) (w : world) (r : recognition)
  (aligned : list segment) (e : exn) :
  compute_device a = Some preference ->
  whisperx_transcribe E (lower (model_size a))
                      (chosen_device E (Some (lower preference)))
                      (audio_of media_file) = Ok r ->
  whisperx_align E (rec_segments r) (rec_language r) (audio_of media_file)
                 (chosen_device E (Some (lower preference))) = Ok aligned ->
  open_w E (subtitle_path (fst media_file) (rec_language r)) = Raise e ->
  exists w',
    process_media_file E a media_file w = (Ok tt, w')
    /\ written w' = written w
    /\ (exists earlier,
          logs w'
          = (earlier
               ++ [{| logger := "main"; level := ERROR;
                      message := "An error occurred while writing the subtitle file: "
                                   ++ exn_str e |}])%list)
    /\ process_media_files E a (media_file :: rest) w
       = process_media_files E a rest w'.
Proof.
  intros Hpref Hr Ha Ho.
  destruct (process_media_file_transcribed E a preference media_file w r
              aligned Hpref Hr Ha) as (w1 & Hw1 & Hrun).
  assert (Hstep : exists w',
             write_step E (fst media_file) (rec_language r)
                        (generate_subtitles E aligned) w1 = (Ok tt, w')
             /\ written w' = written w1
             /\ logs w'
                = (logs w1
                     ++ [{| logger := "main"; level := ERROR;
                            message := "An error occurred while writing the subtitle file: "
                                         ++ exn_str e |}])%list).
  { unfold write_step, try_except, bind, call_out, write_file, log,
      stopwatch_do. rewrite Ho. cbn. eauto. }
  destruct Hstep as (w2 & Hstep & Hw2 & Hl2).
  exists w2. rewrite Hrun, Hstep. repeat split.
  - congruence.
  - now exists (logs w1).
  - unfold process_media_files. cbn [for_each].
    erewrite bind_ok; [reflexivity|]. now rewrite Hrun.
Qed.

Lemma process_media_file_write_failure_witness :
  exists w',
    process_media_file
      (with_open_w (fun _ => Raise (OSError "read-only file system")) demo_env)
      (demo_args (Some "cpu")) ("media/a.mp3", true) world0 = (Ok tt, w')
    /\ written w' = written world0
    /\ (exists earlier,
          logs w'
          = (earlier
               ++ [{| logger := "main"; level := ERROR;
                      message := "An error occurred while writing the subtitle file: "
                                   ++ exn_str (OSError "read-only file system") |}])%list)
    /\ process_media_files
         (with_open_w (fun _ => Raise (OSError "read-only file system")) demo_env)
         (demo_args (Some "cpu")) [("media/a.mp3", true)] world0
       = process_media_files
           (with_open_w (fun _ => Raise (OSError "read-only file system")) demo_env)
           (demo_args (Some "cpu")) [] w'.
Proof.
  apply (process_media_file_write_failure
           (with_open_w (fun _ => Raise (OSError "read-only file system")) demo_env)
           (demo_args (Some "cpu")) "cpu" ("media/a.mp3", true) [] world0
           {| rec_language := "en";
              rec_segments := [seg 0 1.5 " Hello there. ";
                               seg 3725.5 3727 "General Kenobi."] |}
           [seg 0 1.5 " Hello there. "; seg 3725.5 3727 "General Kenobi."]);
    reflexivity.
Defined.

(** ** The whole batch *)

Lemma process_media_file_expected (E : env) (a : args) (preference : string)
  (media_file : string * bool) (w : world) (file : string * string) :
  compute_device a = Some preference ->
  expected_subtitle E preference (model_size a) media_file = Some file ->
  exists w',
    process_media_file E a media_file w = (Ok tt, w')
    /\ written w' = (written w ++ [file])%list.
Proof.
  intros Hpref. unfold expected_subtitle.
  destruct (whisperx_transcribe E _ _ _) as [r|] eqn:Hr; [|discriminate].
  destruct (whisperx_align E _ _ _ _) as [aligned|] eqn:Ha; [|discriminate].
  destruct (open_w E _) as [[]|] eqn:Ho; [|discriminate].
  intros [= <-].
  destruct (process_media_file_transcribed E a preference media_file w r
              aligned Hpref Hr Ha) as (w1 & Hw1 & ->).
  destruct (write_step_ok E (fst media_file) (rec_language r)
              (generate_subtitles E aligned) w1 Ho) as (w2 & -> & Hw2).
  exists w2. split; [reflexivity | congruence].
Qed.

Lemma process_media_files_expected (E : env) (a : args) (preference : string)
  (media_files : list (string * bool)) (files : list (string * string))
  (w : world) :
  compute_device a = Some preference ->
  map (expected_subtitle E preference (model_size a)) media_files
  = map Some files ->
  exists w',
    process_media_files E a media_files w = (Ok tt, w')
    /\ written w' = (written w ++ files)%list.
Proof.
  intros Hpref. unfold process_media_files.
  revert files w. induction media_files as [|mf mfs IH]; intros files w Hmap.
  - destruct files; [|discriminate]. exists w. cbn. now rewrite app_nil_r.
  - destruct files as [|file files]; [discriminate|].
    cbn [map] in Hmap. injection Hmap as Hfile Hrest.
    destruct (process_media_file_expected E a preference mf w file Hpref Hfile)
      as (w1 & H1 & Hw1).
    destruct (IH files w1 Hrest) as (w2 & H2 & Hw2).
    exists w2. cbn [for_each]. erewrite bind_ok by exact H1.
    split; [exact H2|]. rewrite Hw2, Hw1. now rewrite <- app_assoc.
Qed.

(** X26: when the paths given exist, discovery finds candidates, the
    device preference is given and, for every candidate, recognition,
    alignment and the opening of its subtitle file succeed, [main] returns
    normally and has written one subtitle file per candidate, in discovery
    order, each holding the rendering of the aligned segments. *)
Theorem main_writes_all_subtitles (E : env) (a : args) (preference : string)
  (media_files : list (string * bool)) (files : list (string * string))
  (w : world) :
  missing_directory E a = false ->
  missing_file E a = false ->
  compute_device a = Some preference ->
  fst (get_media_files E (directory a) (file a) w) = Ok (Some media_files) ->
  map (expected_subtitle E preference (model_size a)) media_files
  = map Some files ->
  fst (main E a w) = Ok tt
  /\ written (snd (main E a w)) = (written w ++ files)%list.
Proof.
  intros Hdir Hfile Hpref Hfound Hall. unfold main. rewrite Hdir, Hfile.
  destruct (get_media_files_full E (directory a) (file a) w)
    as (w1 & H1 & Hw1 & _).
  rewrite H1 in Hfound. cbn [fst] in Hfound. injection Hfound as Hd.
  rewrite Hd in H1. erewrite bind_ok by exact H1.
  destruct media_files as [|mf mfs].
  - destruct files; [|discriminate]. cbn. now rewrite app_nil_r.
  - destruct (process_media_files_expected E a preference (mf :: mfs) files
                w1 Hpref Hall) as (w2 & H2 & Hw2).
    erewrite bind_ok by exact H2. cbn. split; [reflexivity | congruence].
Qed.

Lemma main_writes_all_subtitles_witness :
  fst (main (with_ffmpeg_run (fun _ => Ok tt) demo_env)
            {| file := Some "media/a.mp3"; directory := None;
               compute_device := Some "cuda"; model_size := "base.en";
               log_level_arg := "ERROR" |} world0) = Ok tt
  /\ written (snd (main (with_ffmpeg_run (fun _ => Ok tt) demo_env)
                        {| file := Some "media/a.mp3"; directory := None;
                           compute_device := Some "cuda";
                           model_size := "base.en";
                           log_level_arg := "ERROR" |} world0))
     = (written world0
          ++ [("media/a.ai-en.srt",
               generate_subtitles demo_env
                 [seg 0 1.5 " Hello there. ";
                  seg 3725.5 3727 "General Kenobi."])])%list.
Proof.
  apply (main_writes_all_subtitles (with_ffmpeg_run (fun _ => Ok tt) demo_env)
           {| file := Some "media/a.mp3"; directory := None;
              compute_device := Some "cuda"; model_size := "base.en";
              log_level_arg := "ERROR" |}
           "cuda" [("media/a.mp3", true)]); reflexivity.
Defined.

(** ** The subtitle path *)

Lemma drop_0 (s : string) : drop 0 s = s.
Proof. now destruct s. Qed.

Lemma mul_str_slash (n : nat) (a b : string) (c : ascii) :
  a ++ String c b = OsPath.mul_str "/" n -> c = "/"%char.
Proof.
  revert a. induction n as [|n IH]; intros a; cbn [OsPath.mul_str append].
  - destruct a; discriminate.
  - destruct a as [|x a]; cbn [append]; intros [= H1 H2]; [now symmetry|].
    now apply (IH a).
Qed.

Lemma rstrip_char_keeps (x c : ascii) (a : string) :
  Ascii.eqb c x = false ->
  rstrip_char x (a ++ String c (String x "")) = a ++ String c "".
Proof.
  intros Hc. induction a as [|y a IH]; cbn [append rstrip_char].
  - rewrite Ascii.eqb_refl, Hc. reflexivity.
  - rewrite IH. now destruct a.
Qed.

(** The directory of [dir/rest], when [dir] ends in a character that is
    not a slash and [rest] holds no slash. *)
Lemma dirname_plain (d0 : string) (c : ascii) (rest : string) :
  Ascii.eqb c "/" = false ->
  contains "/" rest = false ->
  OsPath.dirname ((d0 ++ String c "") ++ "/" ++ rest) = d0 ++ String c "".
Proof.
  intros Hc Hrest. unfold OsPath.dirname, rfind.
  change ((d0 ++ String c "") ++ "/" ++ rest)
    with ((d0 ++ String c "") ++ String "/" rest).
  rewrite rfind_nat_last by exact Hrest.
  replace (Z.to_nat (Z.of_nat (String.length (d0 ++ String c "")) + 1))
    with (String.length ((d0 ++ String c "") ++ "/")).
  2: { rewrite (length_append (d0 ++ String c "") "/"). cbn. lia. }
  change ((d0 ++ String c "") ++ String "/" rest)
    with ((d0 ++ String c "") ++ "/" ++ rest).
  rewrite <- append_assoc, take_append.
  rewrite append_assoc. cbn [append].
  assert (Ht : truthy (d0 ++ String c "/") = true) by now destruct d0.
  rewrite Ht. cbn [andb].
  destruct (String.eqb_spec (d0 ++ String c "/")
              (OsPath.mul_str "/" (String.length (d0 ++ String c "/"))))
    as [Heq|Hne].
  - apply mul_str_slash in Heq. subst c. discriminate.
  - cbn [negb]. now apply rstrip_char_keeps.
Qed.

Lemma stem_of_plain (prefix ext : string) :
  contains "." ext = false ->
  stem_of (prefix ++ "." ++ ext) = prefix.
Proof.
  intros Hext. unfold stem_of.
  change (prefix ++ "." ++ ext) with (prefix ++ String "." ext).
  rewrite rfind_nat_last by exact Hext. apply take_append.
Qed.

Lemma basename_plain (dir name : string) :
  contains "/" name = false ->
  OsPath.basename (dir ++ "/" ++ name) = name.
Proof.
  intros Hname. unfold OsPath.basename, rfind.
  change (dir ++ "/" ++ name) with (dir ++ String "/" name).
  rewrite rfind_nat_last by exact Hname.
  replace (Z.to_nat (Z.of_nat (String.length dir) + 1))
    with (String.length (dir ++ "/")).
  2: { rewrite length_append. cbn. lia. }
  change (dir ++ String "/" name) with (dir ++ "/" ++ name).
  rewrite <- append_assoc. apply drop_append.
Qed.

(** X27: for a source [dir/name.ext], where [dir] ends in a character
    other than a slash, [name] is not empty and holds no slash and [ext]
    holds neither a slash nor a dot, the subtitle path is
    [dir/name.ai-{language}.srt]: beside the source, the extension replaced. *)
Theorem subtitle_path_beside_source (d0 : string) (c : ascii)
  (name ext language : string) :
  Ascii.eqb c "/" = false ->
  truthy name = true ->
  contains "/" name = false ->
  contains "/" ext = false ->
  contains "." ext = false ->
  subtitle_path ((d0 ++ String c "") ++ "/" ++ name ++ "." ++ ext) language
  = (d0 ++ String c "") ++ "/" ++ name ++ ".ai-" ++ language ++ ".srt".
Proof.
  intros Hc Hne Hname Hext_slash Hext_dot. unfold subtitle_path.
  rewrite dirname_plain.
  2: exact Hc.
  2: { change (name ++ "." ++ ext) with (name ++ String "." ext).
       rewrite contains_char_append, Hname.
       rewrite contains_char_cons, Hext_slash. reflexivity. }
  replace ((d0 ++ String c "") ++ "/" ++ name ++ "." ++ ext)
    with (((d0 ++ String c "") ++ "/" ++ name) ++ "." ++ ext)
    by now rewrite !append_assoc.
  rewrite stem_of_plain by exact Hext_dot.
  rewrite basename_plain by exact Hname.
  unfold OsPath.join.
  destruct name as [|x name]; [discriminate|].
  assert (Hx : Ascii.eqb "/" x = false).
  { rewrite contains_char_cons in Hname. now apply orb_false_elim in Hname. }
  cbn [append startswith]. rewrite Hx. cbn [andb].
  assert (Ht : truthy (d0 ++ String c "") = true) by now destruct d0.
  rewrite Ht. cbn [negb orb].
  assert (He : endswith "/" (d0 ++ String c "") = false).
  { unfold endswith. rewrite length_append. cbn [String.length].
    replace (String.length d0 + 1 - 1)%nat with (String.length d0) by lia.
    rewrite drop_append.
    replace (1 <=? String.length d0 + 1)%nat with true
      by (symmetry; apply Nat.leb_le; lia).
    cbn [andb String.eqb]. now rewrite Hc. }
  rewrite He. reflexivity.
Qed.

Lemma subtitle_path_beside_source_witness :
  subtitle_path (("/home/user/video" ++ "s") ++ "/" ++ "talk" ++ "." ++ "mkv") "en"
  = ("/home/user/video" ++ "s") ++ "/" ++ "talk" ++ ".ai-" ++ "en" ++ ".srt".
Proof.
  apply (subtitle_path_beside_source "/home/user/video" "s" "talk" "mkv" "en");
    reflexivity.
Defined.

(** ** The early exits of [main] *)

(** X28: when the directory argument is not a directory, or the file
    argument is not a file, [main] returns normally after one error record
    of its own: no collaborator is called, no file is written and the
    stopwatch is not touched. *)
Theorem main_missing_path (E : env) (a : args) (w : world) :
  missing_directory E a = true \/ missing_file E a = true ->
  exists record,
    main E a w
    = (Ok tt,
       {| logs := logs w ++ [record]; stopwatch := stopwatch w;
          written := written w; calls := calls w |})
    /\ logger record = "main" /\ level record = ERROR.
Proof.
  unfold main. intros [Hd|Hf].
  - rewrite Hd. eexists. unfold log. split; [reflexivity | split; reflexivity].
  - destruct (missing_directory E a); rewrite ?Hf;
      eexists; unfold log; (split; [reflexivity | split; reflexivity]).
Qed.

Lemma main_missing_path_witness :
  exists record,
    main demo_env
         {| file := Some "media/a.mp3"; directory := Some "nowhere";
            compute_device := Some "cpu"; model_size := "base.en";
            log_level_arg := "ERROR" |} world0
    = (Ok tt,
       {| logs := logs world0 ++ [record]; stopwatch := stopwatch world0;
          written := written world0; calls := calls world0 |})
    /\ logger record = "main" /\ level record = ERROR.
Proof. apply main_missing_path. left. reflexivity. Defined.

(** X29: when the paths given exist and discovery returns [None] or the
    empty list, [main] returns normally in the world that discovery left:
    nothing is transcoded, transcribed or written, and no summary is
    reported. *)
Theorem main_nothing_found (E : env) (a : args) (w : world) :
  missing_directory E a = false ->
  missing_file E a = false ->
  fst (get_media_files E (directory a) (file a) w) = Ok None
  \/ fst (get_media_files E (directory a) (file a) w) = Ok (Some []) ->
  main E a w = (Ok tt, snd (get_media_files E (directory a) (file a) w)).
Proof.
  intros Hd Hf Hnone. unfold main. rewrite Hd, Hf. unfold bind.
  destruct (get_media_files E (directory a) (file a) w) as [[r|e] w1];
    cbn [fst snd] in *.
  - destruct Hnone as [[= ->]|[= ->]]; reflexivity.
  - destruct Hnone; discriminate.
Qed.

Lemma main_nothing_found_witness :
  main demo_env
       {| file := None; directory := Some "docs"; compute_device := None;
          model_size := "base.en"; log_level_arg := "ERROR" |} world0
  = (Ok tt, snd (get_media_files demo_env (Some "docs") None world0)).
Proof.
  apply (main_nothing_found demo_env
           {| file := None; directory := Some "docs"; compute_device := None;
              model_size := "base.en"; log_level_arg := "ERROR" |} world0);
    [reflexivity | reflexivity | left; reflexivity].
Defined.

(** ** More on [generate_subtitles] *)

Lemma enumerate_app {A : Type} (xs ys : list A) (i : Z) :
  enumerate (xs ++ ys) i
  = (enumerate xs i ++ enumerate ys (i + Z.of_nat (List.length xs)))%list.
Proof.
  revert i. induction xs as [|x xs IH]; intros i; cbn [app enumerate List.length].
  - now rewrite Z.add_0_r.
  - rewrite IH. do 3 f_equal. lia.
Qed.

Lemma srt_content_flat (E : env) (segments : list segment) :
  srt_content E segments
  = flat_map (fun p => srt_block E (fst p) (snd p)) (enumerate segments 1).
Proof. unfold srt_content. now rewrite srt_content_blocks. Qed.

(** X30: the entries rendered for two runs of segments one after the
    other are the entries of the first run followed by the blocks of the
    second, numbered from where the first run stopped; there are three
    entries per segment. *)
Theorem srt_content_app (E : env) (first second : list segment) :
  srt_content E (first ++ second)
  = (srt_content E first
       ++ flat_map (fun p => srt_block E (fst p) (snd p))
            (enumerate second (1 + Z.of_nat (List.length first))))%list
  /\ List.length (srt_content E first) = (3 * List.length first)%nat.
Proof.
  split.
  - rewrite !srt_content_flat, enumerate_app. now rewrite flat_map_app.
  - rewrite srt_content_flat. generalize 1%Z.
    induction first as [|s first IH]; intros i; [reflexivity|].
    cbn [enumerate flat_map srt_block fst snd app List.length].
    rewrite IH. lia.
Qed.

(** ** An invalid single file beside a directory *)

(** C4: when the directory argument is a non-empty path whose walk finds
    at least one valid candidate and the file argument is a non-empty path
    that is not valid media, [get_media_files] returns [None]: the
    candidates of the directory are dropped, and the last log record is
    the error about the file. *)
Theorem get_media_files_invalid_file (E : env) (d f : string) (w : world) :
  truthy d = true ->
  walk_candidates E d <> [] ->
  truthy f = true ->
  fst (media_kind E f) = false ->
  fst (get_media_files E (Some d) (Some f) w) = Ok None
  /\ exists earlier,
       logs (snd (get_media_files E (Some d) (Some f) w))
       = (earlier
            ++ [{| logger := "get_media_files"; level := ERROR;
                   message := "Error: File '" ++ f
                                ++ "' is not a valid media file." |}])%list.
Proof.
  intros Hd Hwalk Hf Hk. unfold get_media_files. rewrite Hd, Hf.
  destruct (walk_run E (os_walk E d) [] w) as (w1 & H1 & _).
  cbn [app] in H1. fold (walk_candidates E d) in H1.
  destruct (walk_candidates E d) as [|c cs]; [contradiction|].
  erewrite bind_ok.
  2: { erewrite bind_ok by exact H1. reflexivity. }
  cbv beta iota.
  destruct (is_media_file_run E f w1) as (w2 & H2 & _).
  erewrite bind_ok by exact H2.
  destruct (media_kind E f) as [[|] is_audio]; [discriminate Hk|].
  unfold bind, log, ret. cbn [fst snd logs]. split; [reflexivity|].
  now exists (logs w2).
Qed.

Lemma get_media_files_invalid_file_witness :
  fst (get_media_files demo_env (Some "media") (Some "media/notes.txt") world0)
  = Ok None
  /\ exists earlier,
       logs (snd (get_media_files demo_env (Some "media")
                                  (Some "media/notes.txt") world0))
       = (earlier
            ++ [{| logger := "get_media_files"; level := ERROR;
                   message := "Error: File '" ++ "media/notes.txt"
                                ++ "' is not a valid media file." |}])%list.
Proof.
  apply (get_media_files_invalid_file demo_env "media" "media/notes.txt"
           world0); [reflexivity | discriminate | reflexivity | reflexivity].
Defined.

(** ** The name of the audio artifact *)

(** The scan of [splitext] over a file name [root.ext], started after a
    prefix [pre]: the name is split at the dot unless [root] is made of
    dots only. *)
Lemma splitext_scan_spec (ext root pre : string) :
  OsPath.splitext_scan (pre ++ root ++ String "." ext)
    (String.length pre + String.length root) (String.length pre)
    (String.length root)
  = if all_dots root
    then (pre ++ root ++ String "." ext, "")
    else (take (String.length pre + String.length root)
               (pre ++ root ++ String "." ext),
          drop (String.length pre + String.length root)
               (pre ++ root ++ String "." ext)).
Proof.
  revert pre. induction root as [|c r IH]; intros pre.
  - reflexivity.
  - cbn [String.length OsPath.splitext_scan all_dots].
    rewrite drop_append. cbn [append take].
    destruct (Ascii.eqb c ".") eqn:Hc; cbn [String.eqb andb negb];
      rewrite Hc; cbn [negb andb].
    + apply Ascii.eqb_eq in Hc. subst c.
      specialize (IH (pre ++ ".")).
      rewrite length_append in IH. cbn [String.length] in IH.
      rewrite append_assoc in IH. cbn [append] in IH.
      replace (String.length pre + 1)%nat with (S (String.length pre)) in IH
        by lia.
      replace (S (String.length pre) + String.length r)%nat
        with (String.length pre + S (String.length r))%nat in IH by lia.
      exact IH.
    + reflexivity.
Qed.

(** [splitext] on a file name without slash: [root.ext] gives [root],
    unless [root] is made of dots only. *)
Lemma splitext_file_name (root ext : string) :
  contains "/" (root ++ "." ++ ext) = false ->
  contains "." ext = false ->
  fst (OsPath.splitext (root ++ "." ++ ext))
  = if all_dots root then root ++ "." ++ ext else root.
Proof.
  intros Hslash Hext. unfold OsPath.splitext, rfind.
  rewrite (contains_false_rfind _ _ Hslash).
  change (root ++ "." ++ ext) with (root ++ String "." ext).
  rewrite rfind_nat_last by exact Hext.
  replace (-1 <? Z.of_nat (String.length root))%Z with true
    by (symmetry; apply Z.ltb_lt; lia).
  rewrite Nat2Z.id. change (Z.to_nat (-1 + 1)) with 0%nat.
  rewrite Nat.sub_0_r.
  pose proof (splitext_scan_spec ext root "") as Hscan.
  cbn [append String.length Nat.add] in Hscan. rewrite Hscan.
  destruct (all_dots root); cbn [fst]; [reflexivity|].
  apply take_append.
Qed.

Lemma splitext_no_dot (name : string) :
  contains "." name = false -> fst (OsPath.splitext name) = name.
Proof.
  intros Hdot. unfold OsPath.splitext, rfind.
  rewrite (contains_false_rfind _ _ Hdot).
  destruct (rfind_nat "/" name) as [i|]; [|reflexivity].
  replace (Z.of_nat i <? -1)%Z with false
    by (symmetry; apply Z.ltb_ge; lia).
  reflexivity.
Qed.

Lemma basename_of_last (video_path dir last : string) :
  video_path = last \/ video_path = dir ++ "/" ++ last ->
  contains "/" last = false ->
  OsPath.basename video_path = last.
Proof.
  intros [->| ->] Hlast.
  - unfold OsPath.basename, rfind.
    rewrite (contains_false_rfind _ _ Hlast).
    change (Z.to_nat (-1 + 1)) with 0%nat. apply drop_0.
  - now apply basename_plain.
Qed.

(** C6: whatever the transcoder does, [extract_audio] returns
    [audio-{base}.mp3], where [base] is taken from the last component of
    the source path: the component up to its last dot when something other
    than dots stands before that dot, the whole component otherwise.  When
    the transcoder raises, the error goes to the log and the call still
    returns that path. *)
Theorem extract_audio_returns_path (E : env) (video_path : string) (w : world) :
  let path :=
    "audio-" ++ fst (OsPath.splitext (OsPath.basename video_path)) ++ ".mp3" in
  fst (extract_audio E video_path w) = Ok path
  /\ (forall e,
        ffmpeg_run E (extraction_request video_path path) = Raise e ->
        logs (snd (extract_audio E video_path w))
        = (logs w ++ [{| logger := "extract_audio"; level := ERROR;
                         message := "An error occurred while extracting audio: "
                                      ++ exn_str e |}])%list)
  /\ (forall dir last root ext,
        video_path = last \/ video_path = dir ++ "/" ++ last ->
        contains "/" last = false ->
        last = root ++ "." ++ ext ->
        contains "." ext = false ->
        path = "audio-" ++ (if all_dots root then last else root) ++ ".mp3")
  /\ (forall dir last,
        video_path = last \/ video_path = dir ++ "/" ++ last ->
        contains "/" last = false ->
        contains "." last = false ->
        path = "audio-" ++ last ++ ".mp3").
Proof.
  intros path. repeat split.
  - unfold extract_audio. fold path.
    unfold bind, try_except, call_out, stopwatch_do, log, ret. simpl.
    now destruct (ffmpeg_run E (extraction_request video_path path)) as [[]|e0].
  - unfold extract_audio. fold path.
    unfold bind, try_except, call_out, stopwatch_do, log, ret. simpl.
    intros e He. rewrite He. reflexivity.
  - intros dir last root ext Hpath Hlast Hsplit Hext. unfold path.
    rewrite (basename_of_last video_path dir last Hpath Hlast).
    subst last. rewrite splitext_file_name by assumption. reflexivity.
  - intros dir last Hpath Hlast Hdot. unfold path.
    rewrite (basename_of_last video_path dir last Hpath Hlast).
    now rewrite splitext_no_dot.
Qed.

Lemma extract_audio_returns_path_witness :
  fst (extract_audio demo_env "/videos/talk.final.mkv" world0)
  = Ok "audio-talk.final.mp3"
  /\ fst (extract_audio demo_env "clips/.hidden" world0) = Ok "audio-.hidden.mp3"
  /\ fst (extract_audio demo_env "notes" world0) = Ok "audio-notes.mp3".
Proof.
  split; [|split].
  - destruct (extract_audio_returns_path demo_env "/videos/talk.final.mkv"
                world0) as (H1 & _ & H3 & _).
    rewrite H1. apply (f_equal Ok).
    apply (H3 "/videos" "talk.final.mkv" "talk.final" "mkv");
      [right|..]; reflexivity.
  - destruct (extract_audio_returns_path demo_env "clips/.hidden" world0)
      as (H1 & _ & H3 & _).
    rewrite H1. apply (f_equal Ok).
    apply (H3 "clips" ".hidden" "" "hidden"); [right|..]; reflexivity.
  - destruct (extract_audio_returns_path demo_env "notes" world0)
      as (H1 & _ & _ & H4).
    rewrite H1. apply (f_equal Ok).
    apply (H4 "" "notes"); [left|..]; reflexivity.
Defined.

(** ** The indices in the rendered text *)













